(** * KubernetesRunner: the model-server runner for the kubernetes runtime

    A shallow embedding of
    [tfx/components/infra_validator/model_server_runners/kubernetes_runner.py].

    The runner is a state-holding object ([self]) that talks to three
    outside parties: the kubernetes core API, the wall clock
    ([time.time], [time.sleep]) and the logger.  The embedding threads a
    pair (runner, world) through a small state-and-exception monad.  An
    exception leaves the state as it was when it was raised, as in Python.

    Conventions.
    - Python [None]-able attributes are [option]s; truthiness ([a or b],
      [not x], [x and y]) is written out in [Py].
    - The clock counts seconds as [Z].
    - The cluster is a script: the answer of the k-th call of each API
      method, which may depend on the arguments of the call.  Every run of
      the runner against some orchestrator is a run against such a script.
    - The client reports a failed call by raising [rest.ApiException],
      which carries an HTTP status. *)

From Stdlib Require Import ZArith List String Ascii Bool Lia DecimalString.
Import ListNotations.

#[local] Open Scope string_scope.
#[local] Open Scope Z_scope.

(** ** Python values *)

Module Py.

(** Truthiness of an optional string: [None] and [''] are falsy. *)
Definition truthy_str (s : option string) : bool :=
  match s with
  | Some s => negb (s =? "")%string
  | None => false
  end.

(** [a or b] *)
Definition or_ {A : Type} (truthy : A -> bool) (a b : A) : A :=
  if truthy a then a else b.

(** [str(n)], which is also what ['{}'.format(n)] prints for an int. *)
Definition str_of_int (n : Z) : string :=
  NilZero.string_of_int (Z.to_int n).

(** [n or d] for an optional integer [n] and an integer [d]: [None] and
    [0] are falsy. *)
Definition int_or (n : option Z) (d : Z) : Z :=
  match n with
  | Some n => if n =? 0 then d else n
  | None => d
  end.

(** [s == lit] for an optional string [s] and a string literal. *)
Definition str_eq (s : option string) (lit : string) : bool :=
  match s with
  | Some s => (s =? lit)%string
  | None => false
  end.

(** [n == lit] for an optional integer [n] and an integer literal. *)
Definition int_eq (n : option Z) (lit : Z) : bool :=
  match n with
  | Some n => n =? lit
  | None => false
  end.

(** ['{}'.format(s)] for an optional string. *)
Definition str_of_opt (s : option string) : string :=
  match s with
  | Some s => s
  | None => "None"
  end.

End Py.

(** ** The kubernetes client's objects (the fields the runner touches) *)

Module V1EnvVar.
Record t := { name : string; value : string }.
End V1EnvVar.

Module V1OwnerReference.
Record t := {
  api_version : option string;
  kind : option string;
  name : option string;
  uid : option string
}.
End V1OwnerReference.

Module V1ObjectMeta.
Record t := {
  name : option string;
  generate_name : option string;
  uid : option string;
  labels : list (string * string);
  owner_references : list V1OwnerReference.t
}.
End V1ObjectMeta.

Module V1Container.
Record t := {
  name : string;
  image : string;
  env : list V1EnvVar.t
}.
End V1Container.

Module V1PodSpec.
Record t := {
  containers : list V1Container.t;
  service_account_name : option string;
  restart_policy : option string;
  active_deadline_seconds : option Z
}.
End V1PodSpec.

Module V1PodStatus.
Record t := {
  phase : option string;
  pod_ip : option string
}.
End V1PodStatus.

Module V1Pod.
Record t := {
  api_version : option string;
  kind : option string;
  metadata : V1ObjectMeta.t;
  spec : V1PodSpec.t;
  status : V1PodStatus.t
}.
End V1Pod.

(** ** [infra_validator_pb2.KubernetesConfig] and [serving_bins] *)

Module KubernetesConfig.
(** An unset field is [None]; a field set to its zero value is
    [Some ""] or [Some 0]. *)
Record t := {
  service_account_name : option string;
  active_deadline_seconds : option Z
}.
End KubernetesConfig.

Module serving_bins.

(** The class of the serving binary, as [isinstance] and
    [type(...).__name__] see it. *)
Inductive class :=
| TensorFlowServing
| OtherServingBinary (type_name : string).

Record ServingBinary := {
  class_of : class;
  image : string;
  container_port : Z;
  (** [MakeEnvVars(model_path=...)]: the items of the returned dict, in
      order. *)
  MakeEnvVars : string -> list (string * string)
}.

End serving_bins.

(** ** Module constants *)

Definition _DEFAULT_POLLING_INTERVAL_SEC : Z := 5.
(** [int(datetime.timedelta(hours=24).total_seconds())] *)
Definition _DEFAULT_ACTIVE_DEADLINE_SEC : Z := 24 * 60 * 60.

Definition _APP_KEY := "app".
Definition _MODEL_SERVER_POD_NAME_PREFIX := "tfx-infraval-modelserver-".
Definition _MODEL_SERVER_APP_LABEL := "tfx-infraval-modelserver".
Definition _MODEL_SERVER_CONTAINER_NAME := "model-server".

Definition _POD_PHASE_RUNNING := "Running".
Definition _POD_PHASE_SUCCEEDED := "Succeeded".
Definition _POD_PHASE_FAILED := "Failed".

Definition _POD_CONTAINER_RESTART_POLICY_NEVER := "Never".

(** ** Exceptions and results *)

Inductive exn :=
| AssertionError (msg : string)
| NotImplementedError (msg : string)
| ValueError (msg : string)
| JobAborted (msg : string)
| DeadlineExceeded (msg : string)
| ApiException (status : option Z).

Inductive result (A : Type) :=
| Return (a : A)
| Raise (e : exn).
Arguments Return {A} a.
Arguments Raise {A} e.

(** ** The world outside the runner *)

Inductive log_level := INFO | WARNING | ERROR.

Inductive event :=
| EvCreate (namespace : string) (body : V1Pod.t)
| EvRead (name : option string) (namespace : string)
| EvDelete (name : option string) (namespace : string)
| EvSleep (seconds : Z)
| EvLog (level : log_level) (msg : string).

(** The scripted orchestrator behind [self._k8s_core_api].  [read] and
    [delete] are indexed by the number of earlier calls of the same
    method; [read_latency] is the time the k-th read takes. *)
Record Cluster := {
  create_namespaced_pod : string -> V1Pod.t -> result V1Pod.t;
  read_namespaced_pod : nat -> option string -> string -> result V1Pod.t;
  delete_namespaced_pod : nat -> option string -> string -> result unit;
  read_latency : nat -> N
}.

Record World := {
  clock : Z;
  cluster : Cluster;
  reads : nat;
  deletes : nat;
  trace : list event
}.

(** ** The runner object *)

Record KubernetesRunner := {
  _config : KubernetesConfig.t;
  _model_path : string;
  _serving_binary : serving_bins.ServingBinary;
  _executor_pod : V1Pod.t;
  _namespace : string;
  _label_dict : list (string * string);
  _pod_name : option string;
  _endpoint : option string
}.

Definition set_pod_name (self : KubernetesRunner) (n : option string) :=
  {| _config := _config self; _model_path := _model_path self;
     _serving_binary := _serving_binary self;
     _executor_pod := _executor_pod self; _namespace := _namespace self;
     _label_dict := _label_dict self;
     _pod_name := n; _endpoint := _endpoint self |}.

Definition set_endpoint (self : KubernetesRunner) (e : option string) :=
  {| _config := _config self; _model_path := _model_path self;
     _serving_binary := _serving_binary self;
     _executor_pod := _executor_pod self; _namespace := _namespace self;
     _label_dict := _label_dict self;
     _pod_name := _pod_name self; _endpoint := e |}.

(** ** The monad: state passing with exceptions *)

Definition State : Type := KubernetesRunner * World.

Definition M (A : Type) : Type := State -> result A * State.

Definition ret {A} (a : A) : M A := fun st => (Return a, st).

Definition raise {A} (e : exn) : M A := fun st => (Raise e, st).

Definition bind {A B} (m : M A) (k : A -> M B) : M B :=
  fun st =>
    match m st with
    | (Return a, st') => k a st'
    | (Raise e, st') => (Raise e, st')
    end.

Declare Scope py_scope.
Delimit Scope py_scope with py.
Notation "x <- m ;; k" := (bind m (fun x => k))
  (at level 61, m at next level, right associativity) : py_scope.
Notation "m ;; k" := (bind m (fun _ => k))
  (at level 61, right associativity) : py_scope.
#[local] Open Scope py_scope.

(** [assert cond, msg] *)
Definition assert (cond : bool) (msg : string) : M unit :=
  if cond then ret tt else raise (AssertionError msg).

(** [try: m  except rest.ApiException as e: h e] *)
Definition try_except_ApiException {A} (m : M A) (h : option Z -> M A) : M A :=
  fun st =>
    match m st with
    | (Raise (ApiException status), st') => h status st'
    | r => r
    end.

Definition get_self : M KubernetesRunner := fun st => (Return (fst st), st).

Definition put_self (self : KubernetesRunner) : M unit :=
  fun st => (Return tt, (self, snd st)).

Definition emit (e : event) (w : World) : World :=
  {| clock := clock w; cluster := cluster w; reads := reads w;
     deletes := deletes w; trace := trace w ++ [e] |}.

(** [time.sleep(seconds)]; a negative length is refused by [time]. *)
Definition time_sleep (seconds : Z) : M unit :=
  fun st =>
    if seconds <? 0 then
      (Raise (ValueError "sleep length must be non-negative"), st)
    else
      let w := emit (EvSleep seconds) (snd st) in
      (Return tt,
       (fst st,
        {| clock := clock w + seconds; cluster := cluster w;
           reads := reads w; deletes := deletes w; trace := trace w |})).

(** [logging.info], [logging.warning], [logging.exception] *)
Definition logging (level : log_level) (msg : string) : M unit :=
  fun st => (Return tt, (fst st, emit (EvLog level msg) (snd st))).

(** [self._k8s_core_api.create_namespaced_pod(namespace=, body=)] *)
Definition k8s_create_namespaced_pod (namespace : string) (body : V1Pod.t)
  : M V1Pod.t :=
  fun st =>
    let w := emit (EvCreate namespace body) (snd st) in
    (create_namespaced_pod (cluster w) namespace body, (fst st, w)).

(** [self._k8s_core_api.read_namespaced_pod(name=, namespace=)] *)
Definition k8s_read_namespaced_pod (name : option string) (namespace : string)
  : M V1Pod.t :=
  fun st =>
    let w := emit (EvRead name namespace) (snd st) in
    (read_namespaced_pod (cluster w) (reads w) name namespace,
     (fst st,
      {| clock := clock w + Z.of_N (read_latency (cluster w) (reads w));
         cluster := cluster w; reads := S (reads w); deletes := deletes w;
         trace := trace w |})).

(** [self._k8s_core_api.delete_namespaced_pod(name=, namespace=)] *)
Definition k8s_delete_namespaced_pod (name : option string)
  (namespace : string) : M unit :=
  fun st =>
    let w := emit (EvDelete name namespace) (snd st) in
    (delete_namespaced_pod (cluster w) (deletes w) name namespace,
     (fst st,
      {| clock := clock w; cluster := cluster w; reads := reads w;
         deletes := S (deletes w); trace := trace w |})).

(** ** Construction *)

Module ServingSpec.
Record t := {
  (** [WhichOneof('serving_platform')] *)
  serving_platform : option string;
  kubernetes : KubernetesConfig.t
}.
End ServingSpec.

(** What [kube_utils] reports about the process the runner lives in. *)
Module kube_utils.
Record t := {
  is_inside_kfp : bool;
  get_current_kfp_pod : V1Pod.t;
  get_kfp_namespace : string
}.
End kube_utils.

Definition __init__ (env : kube_utils.t) (model_path : string)
  (serving_binary : serving_bins.ServingBinary) (serving_spec : ServingSpec.t)
  : result KubernetesRunner :=
  match ServingSpec.serving_platform serving_spec with
  | Some "kubernetes" =>
    if negb (kube_utils.is_inside_kfp env) then
      Raise (NotImplementedError
               "KubernetesRunner should be running inside KFP.")
    else
      Return {| _config := ServingSpec.kubernetes serving_spec;
                _model_path := model_path;
                _serving_binary := serving_binary;
                _executor_pod := kube_utils.get_current_kfp_pod env;
                _namespace := kube_utils.get_kfp_namespace env;
                _label_dict := [(_APP_KEY, _MODEL_SERVER_APP_LABEL)];
                (* Pod name would be populated once creation request sent. *)
                _pod_name := None;
                (* Endpoint would be populated once the Pod is running. *)
                _endpoint := None |}
  | _ => Raise (AssertionError "ServingSpec configuration mismatch.")
  end.

(** ** The methods *)

Definition GetEndpoint : M string :=
  self <- get_self ;;
  match _endpoint self with
  | None =>
    raise (AssertionError
             ("self._endpoint is not ready. You should call Start() and "
              ++ "WaitUntilRunning() first."))
  | Some endpoint => ret endpoint
  end.

Definition _BuildPodManifest : M V1Pod.t :=
  self <- get_self ;;
  env_vars <-
    match serving_bins.class_of (_serving_binary self) with
    | serving_bins.TensorFlowServing =>
      let env_vars_dict :=
        serving_bins.MakeEnvVars (_serving_binary self) (_model_path self) in
      ret (map (fun kv => {| V1EnvVar.name := fst kv;
                             V1EnvVar.value := snd kv |})
               env_vars_dict)
    | serving_bins.OtherServingBinary type_name =>
      raise (NotImplementedError
               ("Unsupported serving binary " ++ type_name))
    end ;;
  let service_account_name :=
    Py.or_ Py.truthy_str
      (KubernetesConfig.service_account_name (_config self))
      (V1PodSpec.service_account_name (V1Pod.spec (_executor_pod self))) in
  let active_deadline_seconds :=
    Py.int_or (KubernetesConfig.active_deadline_seconds (_config self))
      _DEFAULT_ACTIVE_DEADLINE_SEC in
  if active_deadline_seconds <? 0 then
    raise (ValueError ("active_deadline_seconds should be > 0. Got "
                       ++ Py.str_of_int active_deadline_seconds))
  else
    ret {| V1Pod.api_version := None;
           V1Pod.kind := None;
           V1Pod.metadata :=
             {| V1ObjectMeta.name := None;
                V1ObjectMeta.generate_name :=
                  Some _MODEL_SERVER_POD_NAME_PREFIX;
                V1ObjectMeta.uid := None;
                V1ObjectMeta.labels := _label_dict self;
                (* Resources with ownerReferences are automatically deleted
                   once all its owners are deleted. *)
                V1ObjectMeta.owner_references :=
                  [ {| V1OwnerReference.api_version :=
                         V1Pod.api_version (_executor_pod self);
                       V1OwnerReference.kind :=
                         V1Pod.kind (_executor_pod self);
                       V1OwnerReference.name :=
                         V1ObjectMeta.name
                           (V1Pod.metadata (_executor_pod self));
                       V1OwnerReference.uid :=
                         V1ObjectMeta.uid
                           (V1Pod.metadata (_executor_pod self)) |} ] |};
           V1Pod.spec :=
             {| V1PodSpec.containers :=
                  [ {| V1Container.name := _MODEL_SERVER_CONTAINER_NAME;
                       V1Container.image :=
                         serving_bins.image (_serving_binary self);
                       V1Container.env := env_vars |} ];
                V1PodSpec.service_account_name := service_account_name;
                (* No retry in case model server container failed. *)
                V1PodSpec.restart_policy :=
                  Some _POD_CONTAINER_RESTART_POLICY_NEVER;
                (* A hard deadline for the model server container. *)
                V1PodSpec.active_deadline_seconds :=
                  Some active_deadline_seconds |};
           V1Pod.status := {| V1PodStatus.phase := None;
                              V1PodStatus.pod_ip := None |} |}.

Definition Start : M unit :=
  self <- get_self ;;
  assert (negb (Py.truthy_str (_pod_name self)))
         "You cannot start model server multiple times." ;;
  (* The arguments of the call are evaluated before the call is made. *)
  body <- _BuildPodManifest ;;
  pod <- k8s_create_namespaced_pod (_namespace self) body ;;
  put_self (set_pod_name self (V1ObjectMeta.name (V1Pod.metadata pod))) ;;
  logging INFO "Created Pod:\n%s".

(** How one turn of a loop body ends: it falls through to the next turn
    ([continue], or the end of the body), or the method returns. *)
Inductive flow := NextTurn | Returned.

(** The body of the [while] loop of [WaitUntilRunning]. *)
Definition poll : M flow :=
  self <- get_self ;;
  got <-
    try_except_ApiException
      (pod <- k8s_read_namespaced_pod (_pod_name self) (_namespace self) ;;
       ret (Some pod))
      (fun e =>
         logging INFO "Continue polling after getting ApiException(%s)" ;;
         time_sleep _DEFAULT_POLLING_INTERVAL_SEC ;;
         ret None) ;;
  match got with
  | None => ret NextTurn
  | Some pod =>
    (* Pod phase is one of Pending, Running, Succeeded, Failed, or Unknown. *)
    let pod_phase := V1PodStatus.phase (V1Pod.status pod) in
    if Py.str_eq pod_phase _POD_PHASE_RUNNING
       && Py.truthy_str (V1PodStatus.pod_ip (V1Pod.status pod))
    then
      put_self
        (set_endpoint self
           (Some (Py.str_of_opt (V1PodStatus.pod_ip (V1Pod.status pod))
                  ++ ":"
                  ++ Py.str_of_int
                       (serving_bins.container_port (_serving_binary self))))) ;;
      ret Returned
    else if Py.str_eq pod_phase _POD_PHASE_SUCCEEDED
            || Py.str_eq pod_phase _POD_PHASE_FAILED
    then
      raise (JobAborted ("Job has been aborted. (phase="
                         ++ Py.str_of_opt pod_phase ++ ")"))
    else
      logging INFO "Waiting for the pod to be running. (phase=%s)" ;;
      time_sleep _DEFAULT_POLLING_INTERVAL_SEC ;;
      ret NextTurn
  end.

(** [while time.time() < deadline: poll] followed by the [raise] after the
    loop; [time.time()] reads the clock of the world.  [fuel] bounds the
    number of turns; [None] means the bound was reached, not that the
    method returned. *)
Fixpoint wait_loop (fuel : nat) (deadline : Z) (st : State)
  : option (result unit * State) :=
  match fuel with
  | O => None
  | S fuel' =>
    if clock (snd st) <? deadline then
      match poll st with
      | (Return NextTurn, st') => wait_loop fuel' deadline st'
      | (Return Returned, st') => Some (Return tt, st')
      | (Raise e, st') => Some (Raise e, st')
      end
    else
      Some (Raise (DeadlineExceeded
                     "Deadline exceeded while waiting for pod to be running."),
            st)
  end.

Definition WaitUntilRunning (fuel : nat) (deadline : Z) (st : State)
  : option (result unit * State) :=
  if Py.truthy_str (_pod_name (fst st)) then wait_loop fuel deadline st
  else
    Some (Raise (AssertionError
                   "Pod has not been created yet. You should call Start() first."),
          st).

(** ** [time_utils.exponential_backoff] *)

Module time_utils.

(** One step of the generator: the sleep it takes before it yields, if
    any, and the attempt number it yields. *)
Record turn := { sleep_before : option Z; attempt : nat }.

(** The keyword arguments that [Stop] leaves to their defaults. *)
Record defaults := { initial_delay_sec : Z; multiplier : Z }.

(** Modelled from the spec: the turns of [exponential_backoff] from
    attempt [i] on, [n] of them, with [delay_sec] the next sleep. *)
Fixpoint turns_from (i n : nat) (delay_sec multiplier : Z) : list turn :=
  match n with
  | O => []
  | S n' =>
    match i with
    | O =>
      {| sleep_before := None; attempt := i |}
        :: turns_from (S i) n' delay_sec multiplier
    | S _ =>
      {| sleep_before := Some delay_sec; attempt := i |}
        :: turns_from (S i) n' (delay_sec * multiplier) multiplier
    end
  end.

(** Modelled from the spec: [tfx/utils/time_utils.py] is not among the
    sources.  The spec calls it a bounded exponential backoff: it yields
    [attempts] times, the first time at once, and sleeps between two
    yields, each sleep [multiplier] times the one before. *)
Definition exponential_backoff (d : defaults) (attempts : nat) : list turn :=
  turns_from 0 attempts (initial_delay_sec d) (multiplier d).

End time_utils.

(** The sleep the generator takes before a turn. *)
Definition generator_sleep (t : time_utils.turn) : M unit :=
  match time_utils.sleep_before t with
  | Some seconds => time_sleep seconds
  | None => ret tt
  end.

(** [for _ in turns: body]: the generator runs up to its next [yield],
    then the body runs. *)
Fixpoint for_each_turn (turns : list time_utils.turn) (body : M flow)
  : M flow :=
  match turns with
  | [] => ret NextTurn
  | t :: rest =>
    generator_sleep t ;;
    fl <- body ;;
    match fl with
    | Returned => ret Returned
    | NextTurn => for_each_turn rest body
    end
  end.

(** The body of the [for] loop of [Stop]. *)
Definition delete_once : M flow :=
  self <- get_self ;;
  try_except_ApiException
    (logging INFO "Deleting Pod (name=%s)" ;;
     k8s_delete_namespaced_pod (_pod_name self) (_namespace self) ;;
     ret Returned)
    (fun status =>
       if Py.int_eq status 404 then
         logging INFO "Pod (name=%s) does not exist." ;;
         ret Returned
       else
         logging WARNING "Error occured while deleting the Pod (name=%s)." ;;
         logging ERROR "%s" ;;
         ret NextTurn).

Definition Stop (d : time_utils.defaults) : M unit :=
  fl <- for_each_turn (time_utils.exponential_backoff d 5) delete_once ;;
  match fl with
  | Returned => ret tt
  | NextTurn =>
    (* All the exponential backoff was unsuccessful. *)
    logging WARNING "Unable to delete the model server Pod."
  end.

(** ** Reading a run *)

(** Calls to the orchestrator, and the sleeps between them. *)
Definition is_create (e : event) : bool :=
  match e with EvCreate _ _ => true | _ => false end.
Definition is_log (e : event) : bool :=
  match e with EvLog _ _ => true | _ => false end.


(** The answer the orchestrator gives to the k-th status query of the
    runner in [st]. *)
Definition response (st : State) (k : nat) : result V1Pod.t :=
  read_namespaced_pod (cluster (snd st)) k
    (_pod_name (fst st)) (_namespace (fst st)).

(** The answer it gives to the k-th deletion request. *)
Definition deletion (st : State) (k : nat) : result unit :=
  delete_namespaced_pod (cluster (snd st)) k
    (_pod_name (fst st)) (_namespace (fst st)).

(** The k-th status query was made between [st] and [st']. *)
Definition polled (st st' : State) (k : nat) : Prop :=
  (reads (snd st) <= k < reads (snd st'))%nat.

(** The k-th deletion request was made between [st] and [st']. *)
Definition attempted (st st' : State) (k : nat) : Prop :=
  (deletes (snd st) <= k < deletes (snd st'))%nat.


(** The client fails a status query with [rest.ApiException] only. *)
Definition fails_with_ApiException_only (c : Cluster) : Prop :=
  forall k name namespace e,
    read_namespaced_pod c k name namespace = Raise e ->
    exists status, e = ApiException status.

(** What the method can raise by itself. *)
Definition is_configuration_error (e : exn) : bool :=
  match e with
  | ValueError _ | NotImplementedError _ => true
  | _ => false
  end.

Definition is_ValueError (e : exn) : bool :=
  match e with
  | ValueError _ => true
  | _ => false
  end.

(** The runner with another [active_deadline_seconds] in its config. *)
Definition with_active_deadline_seconds (self : KubernetesRunner)
  (d : option Z) : KubernetesRunner :=
  {| _config :=
       {| KubernetesConfig.service_account_name :=
            KubernetesConfig.service_account_name (_config self);
          KubernetesConfig.active_deadline_seconds := d |};
     _model_path := _model_path self;
     _serving_binary := _serving_binary self;
     _executor_pod := _executor_pod self; _namespace := _namespace self;
     _label_dict := _label_dict self;
     _pod_name := _pod_name self; _endpoint := _endpoint self |}.

(** ** A small cluster to run the methods on *)

Module Fixture.

Definition tensorflow_serving : serving_bins.ServingBinary :=
  {| serving_bins.class_of := serving_bins.TensorFlowServing;
     serving_bins.image := "tensorflow/serving:latest";
     serving_bins.container_port := 8500;
     serving_bins.MakeEnvVars :=
       fun p => [("MODEL_NAME", "m"); ("MODEL_BASE_PATH", p)] |}.

Definition a_pod (name : string) (phase pod_ip : option string) : V1Pod.t :=
  {| V1Pod.api_version := Some "v1";
     V1Pod.kind := Some "Pod";
     V1Pod.metadata :=
       {| V1ObjectMeta.name := Some name;
          V1ObjectMeta.generate_name := None;
          V1ObjectMeta.uid := Some "uid-1";
          V1ObjectMeta.labels := [];
          V1ObjectMeta.owner_references := [] |};
     V1Pod.spec :=
       {| V1PodSpec.containers := [];
          V1PodSpec.service_account_name := Some "pipeline-runner";
          V1PodSpec.restart_policy := None;
          V1PodSpec.active_deadline_seconds := None |};
     V1Pod.status := {| V1PodStatus.phase := phase;
                        V1PodStatus.pod_ip := pod_ip |} |}.

Definition kfp : kube_utils.t :=
  {| kube_utils.is_inside_kfp := true;
     kube_utils.get_current_kfp_pod :=
       a_pod "executor" (Some "Running") (Some "10.0.0.1");
     kube_utils.get_kfp_namespace := "kubeflow" |}.

Definition serving_spec (d : option Z) : ServingSpec.t :=
  {| ServingSpec.serving_platform := Some "kubernetes";
     ServingSpec.kubernetes :=
       {| KubernetesConfig.service_account_name := None;
          KubernetesConfig.active_deadline_seconds := d |} |}.

(** The runner [__init__] builds from the above. *)
Definition runner (d : option Z) : KubernetesRunner :=
  {| _config := ServingSpec.kubernetes (serving_spec d);
     _model_path := "/model";
     _serving_binary := tensorflow_serving;
     _executor_pod := kube_utils.get_current_kfp_pod kfp;
     _namespace := "kubeflow";
     _label_dict := [(_APP_KEY, _MODEL_SERVER_APP_LABEL)];
     _pod_name := None;
     _endpoint := None |}.

Definition server := "tfx-infraval-modelserver-abcde".

(** A cluster that creates the pod, answers status queries from
    [statuses] (and with the last entry of it for ever after), and answers
    every deletion request with [on_delete]. *)
Definition scripted (statuses : list (result V1Pod.t))
  (on_delete : result unit) : Cluster :=
  {| create_namespaced_pod :=
       fun _ _ => Return (a_pod server (Some "Pending") None);
     read_namespaced_pod :=
       fun k _ _ =>
         nth k statuses
             (last statuses (Raise (ApiException (Some 500))));
     delete_namespaced_pod := fun _ _ _ => on_delete;
     read_latency := fun _ => 1%N |}.

Definition world (c : Cluster) : World :=
  {| clock := 1000; cluster := c; reads := 0; deletes := 0; trace := [] |}.

(** The state after a successful [Start]. *)
Definition started (c : Cluster) : State :=
  snd (Start (runner None, world c)).

Definition flaky_then_running : Cluster :=
  scripted [ Raise (ApiException (Some 500));
             Return (a_pod server (Some "Pending") None);
             Return (a_pod server (Some "Running") None);
             Return (a_pod server (Some "Running") (Some "10.1.2.3")) ]
           (Return tt).

Definition failing : Cluster :=
  scripted [ Return (a_pod server (Some "Pending") None);
             Return (a_pod server (Some "Failed") None);
             Return (a_pod server (Some "Running") (Some "10.1.2.3")) ]
           (Raise (ApiException (Some 404))).

Definition unreachable : Cluster :=
  scripted [ Raise (ApiException (Some 403)) ]
           (Raise (ApiException (Some 500))).

Definition backoff : time_utils.defaults :=
  {| time_utils.initial_delay_sec := 1; time_utils.multiplier := 2 |}.

End Fixture.

(** ** The turns of the polling loop *)

(** The state right after the status query, before its answer is looked
    at. *)
Definition queried (st : State) : State :=
  snd (k8s_read_namespaced_pod (_pod_name (fst st)) (_namespace (fst st)) st).

(** The state after a log line and a sleep of the polling interval. *)
Definition waited (msg : string) (st : State) : State :=
  snd ((logging INFO msg ;; time_sleep _DEFAULT_POLLING_INTERVAL_SEC) st).

(** The pod is running and has an address. *)
Definition is_ready (pod : V1Pod.t) : bool :=
  Py.str_eq (V1PodStatus.phase (V1Pod.status pod)) _POD_PHASE_RUNNING
  && Py.truthy_str (V1PodStatus.pod_ip (V1Pod.status pod)).

(** The pod's lifecycle has reached its end. *)
Definition is_over (pod : V1Pod.t) : bool :=
  Py.str_eq (V1PodStatus.phase (V1Pod.status pod)) _POD_PHASE_SUCCEEDED
  || Py.str_eq (V1PodStatus.phase (V1Pod.status pod)) _POD_PHASE_FAILED.

Definition endpoint_of (self : KubernetesRunner) (pod : V1Pod.t) : string :=
  Py.str_of_opt (V1PodStatus.pod_ip (V1Pod.status pod))
  ++ ":"
  ++ Py.str_of_int (serving_bins.container_port (_serving_binary self)).

(** The five ways a turn of the loop can go. *)
Inductive poll_case (st : State) : result flow * State -> Prop :=
| poll_api_error status :
    response st (reads (snd st)) = Raise (ApiException status) ->
    poll_case st
      (Return NextTurn,
       waited "Continue polling after getting ApiException(%s)" (queried st))
| poll_other_error e :
    response st (reads (snd st)) = Raise e ->
    (forall status, e <> ApiException status) ->
    poll_case st (Raise e, queried st)
| poll_ready pod :
    response st (reads (snd st)) = Return pod ->
    is_ready pod = true ->
    poll_case st
      (Return Returned,
       (set_endpoint (fst st) (Some (endpoint_of (fst st) pod)),
        snd (queried st)))
| poll_over pod :
    response st (reads (snd st)) = Return pod ->
    is_ready pod = false ->
    is_over pod = true ->
    poll_case st
      (Raise (JobAborted
                ("Job has been aborted. (phase="
                 ++ Py.str_of_opt (V1PodStatus.phase (V1Pod.status pod))
                 ++ ")")),
       queried st)
| poll_not_yet pod :
    response st (reads (snd st)) = Return pod ->
    is_ready pod = false ->
    is_over pod = false ->
    poll_case st
      (Return NextTurn,
       waited "Waiting for the pod to be running. (phase=%s)" (queried st)).

(** The runs of the loop of [WaitUntilRunning], without the bound on the
    number of turns: [Run deadline st out] says that the loop entered in
    state [st] ends with [out]. *)
Inductive Run (deadline : Z) : State -> result unit * State -> Prop :=
| Run_timeout st :
    deadline <= clock (snd st) ->
    Run deadline st
      (Raise (DeadlineExceeded
                "Deadline exceeded while waiting for pod to be running."),
       st)
| Run_next st st' out :
    clock (snd st) < deadline ->
    poll st = (Return NextTurn, st') ->
    Run deadline st' out ->
    Run deadline st out
| Run_return st st' :
    clock (snd st) < deadline ->
    poll st = (Return Returned, st') ->
    Run deadline st (Return tt, st')
| Run_raise st st' e :
    clock (snd st) < deadline ->
    poll st = (Raise e, st') ->
    Run deadline st (Raise e, st').

(** The events of [st'] that [st] does not have yet. *)
Definition events_since (st st' : State) : list event :=
  skipn (List.length (trace (snd st))) (trace (snd st')).

(** ** The turns of the deletion loop *)

(** The state right after the deletion request, before its answer is
    looked at. *)
Definition requested (st : State) : State :=
  snd ((logging INFO "Deleting Pod (name=%s)" ;;
        k8s_delete_namespaced_pod (_pod_name (fst st)) (_namespace (fst st)))
         st).

(** The state after one more log line. *)
Definition logged (level : log_level) (msg : string) (st : State) : State :=
  snd (logging level msg st).

(** The four ways a turn of the loop of [Stop] can go. *)
Inductive delete_case (st : State) : result flow * State -> Prop :=
| delete_done :
    deletion st (deletes (snd st)) = Return tt ->
    delete_case st (Return Returned, requested st)
| delete_not_found status :
    deletion st (deletes (snd st)) = Raise (ApiException status) ->
    Py.int_eq status 404 = true ->
    delete_case st
      (Return Returned,
       logged INFO "Pod (name=%s) does not exist." (requested st))
| delete_failed status :
    deletion st (deletes (snd st)) = Raise (ApiException status) ->
    Py.int_eq status 404 = false ->
    delete_case st
      (Return NextTurn,
       logged ERROR "%s"
         (logged WARNING "Error occured while deleting the Pod (name=%s)."
            (requested st)))
| delete_other_error e :
    deletion st (deletes (snd st)) = Raise e ->
    (forall status, e <> ApiException status) ->
    delete_case st (Raise e, requested st).


(** No turn asks for a sleep of negative length. *)
Definition sleeps_allowed (turns : list time_utils.turn) : Prop :=
  Forall
    (fun t =>
       match time_utils.sleep_before t with
       | Some seconds => 0 <= seconds
       | None => True
       end)
    turns.


(** ** What the other methods show *)

(** [__repr__] *)
Definition __repr__ : M string :=
  self <- get_self ;;
  ret ("KubernetesRunner(image: "
       ++ serving_bins.image (_serving_binary self)
       ++ ", pod_name: " ++ Py.str_of_opt (_pod_name self) ++ ")").

(** The client fails a deletion request with [rest.ApiException] only. *)
Definition deletes_fail_with_ApiException_only (c : Cluster) : Prop :=
  forall k name namespace e,
    delete_namespaced_pod c k name namespace = Raise e ->
    exists status, e = ApiException status.

(** What [WaitUntilRunning] may do to the world: query its own pod, log
    at level INFO, sleep for the polling interval. *)
Definition wait_event (st : State) (e : event) : Prop :=
  e = EvRead (_pod_name (fst st)) (_namespace (fst st))
  \/ (exists msg, e = EvLog INFO msg)
  \/ e = EvSleep _DEFAULT_POLLING_INTERVAL_SEC.

(** What [Stop] may do to the world: ask for the deletion of its own pod,
    log, sleep. *)
Definition stop_event (st : State) (e : event) : Prop :=
  e = EvDelete (_pod_name (fst st)) (_namespace (fst st))
  \/ is_log e = true
  \/ (exists seconds, e = EvSleep seconds).

(** How a turn of the loop of [Stop] ends, given the answer to its
    deletion request. *)
Definition verdict (answer : result unit) : result flow :=
  match answer with
  | Return _ => Return Returned
  | Raise (ApiException status) =>
    if Py.int_eq status 404 then Return Returned else Return NextTurn
  | Raise e => Raise e
  end.

(** The owner reference to the pod the runner lives in. *)
Definition owner_reference_of (pod : V1Pod.t) : V1OwnerReference.t :=
  {| V1OwnerReference.api_version := V1Pod.api_version pod;
     V1OwnerReference.kind := V1Pod.kind pod;
     V1OwnerReference.name := V1ObjectMeta.name (V1Pod.metadata pod);
     V1OwnerReference.uid := V1ObjectMeta.uid (V1Pod.metadata pod) |}.

(** [WaitUntilRunning deadline] entered in [st] returns [out]: it does so
    for every bound on the turns from some bound on, and for no bound does
    it return anything else. *)
Definition WaitUntilRunning_returns (deadline : Z) (st : State)
  (out : result unit * State) : Prop :=
  (exists fuel,
      forall fuel', (fuel <= fuel')%nat ->
                    WaitUntilRunning fuel' deadline st = Some out)
  /\ forall fuel' out',
      WaitUntilRunning fuel' deadline st = Some out' -> out' = out.

(** ** [beam_handler_test.BeamHandlerTest]: the fixture

    [tfx/tools/cli/handler/beam_handler_test.py] tests a handler that is
    not among the sources; what the file itself does is set up and tear
    down the process environment around every test. *)

Module BeamHandlerTest.

(** [os.environ] *)
Definition environ : Type := string -> option string.

(** [os.environ.get(key, default)] *)
Definition get (env : environ) (key default : string) : string :=
  match env key with
  | Some value => value
  | None => default
  end.

(** [os.environ[key] = value] *)
Definition set (env : environ) (key value : string) : environ :=
  fun k => if (k =? key)%string then Some value else env k.

(** What the test case takes from outside: [os.path], the location of the
    test file, the temporary directory and the name of the test method
    that [tf.test.TestCase] provides, and what the [setUp] and [tearDown]
    of that base class do to the environment. *)
Record host := {
  path_join : string -> string -> string;
  path_dirname : string -> string;
  __file__ : string;
  get_temp_dir : string;
  _testMethodName : string;
  super_setUp : environ -> environ;
  super_tearDown : environ -> environ
}.

(** The attributes [setUp] assigns. *)
Record t := {
  _home : string;
  _original_home_value : string;
  _original_beam_home_value : string;
  engine : string;
  chicago_taxi_pipeline_dir : string;
  pipeline_path : string;
  pipeline_name : string;
  run_id : string;
  pipeline_args : list (string * string)
}.

Definition setUp (h : host) (env : environ) : t * environ :=
  let env := super_setUp h env in
  let home :=
    path_join h (get env "TEST_UNDECLARED_OUTPUTS_DIR" (get_temp_dir h))
              (_testMethodName h) in
  let original_home_value := get env "HOME" "" in
  let env := set env "HOME" home in
  let original_beam_home_value := get env "BEAM_HOME" "" in
  let env := set env "BEAM_HOME" (path_join h (get env "HOME" "") "beam") in
  let dir :=
    path_join h (path_dirname h (path_dirname h (__file__ h))) "testdata" in
  ({| _home := home;
      _original_home_value := original_home_value;
      _original_beam_home_value := original_beam_home_value;
      (* Flags for handler. *)
      engine := "beam";
      chicago_taxi_pipeline_dir := dir;
      pipeline_path := path_join h dir "test_pipeline_beam_1.py";
      pipeline_name := "chicago_taxi_beam";
      run_id := "dummyID";
      (* Pipeline args for mocking subprocess *)
      pipeline_args := [("pipeline_name", "chicago_taxi_beam")] |},
   env).

Definition tearDown (h : host) (self : t) (env : environ) : environ :=
  let env := super_tearDown h env in
  let env := set env "HOME" (_original_home_value self) in
  set env "BEAM_HOME" (_original_beam_home_value self).

End BeamHandlerTest.

(** * Properties *)

(** ** Manifest construction and [Start] *)

Ltac run_monad :=
  unfold _BuildPodManifest, Start, GetEndpoint, assert, bind, get_self,
    put_self, ret, raise, logging, k8s_create_namespaced_pod; simpl.

(** [_BuildPodManifest] reads the runner and changes nothing. *)
Lemma _BuildPodManifest_pure (st : State) :
  snd (_BuildPodManifest st) = st.
Proof.
  destruct st as [self w]. run_monad.
  destruct (serving_bins.class_of (_serving_binary self)); simpl; auto.
  destruct (Py.int_or _ _ <? 0); reflexivity.
Qed.

(** The deadline a built manifest carries is the configured one, or the
    default where the configured one is falsy. *)
Lemma _BuildPodManifest_deadline (st : State) (body : V1Pod.t) (st' : State) :
  _BuildPodManifest st = (Return body, st') ->
  V1PodSpec.active_deadline_seconds (V1Pod.spec body)
  = Some (Py.int_or
            (KubernetesConfig.active_deadline_seconds (_config (fst st)))
            _DEFAULT_ACTIVE_DEADLINE_SEC).
Proof.
  destruct st as [self w]. run_monad.
  destruct (serving_bins.class_of (_serving_binary self)); simpl;
    [ | discriminate ].
  destruct (Py.int_or _ _ <? 0); [ discriminate | ].
  intros H. injection H as <- _. reflexivity.
Qed.

(** The only [ValueError] of manifest construction is the one for a
    negative deadline. *)
Lemma _BuildPodManifest_ValueError (st : State) (e : exn) :
  fst (_BuildPodManifest st) = Raise e ->
  is_ValueError e = true ->
  exists n,
    KubernetesConfig.active_deadline_seconds (_config (fst st)) = Some n
    /\ n < 0.
Proof.
  destruct st as [self w]. run_monad.
  destruct (serving_bins.class_of (_serving_binary self)); simpl.
  - unfold Py.int_or.
    destruct (KubernetesConfig.active_deadline_seconds (_config self))
      as [n|]; simpl.
    + destruct (Z.eqb_spec n 0) as [->|Hn]; simpl; [ discriminate | ].
      destruct (Z.ltb_spec n 0); simpl; [ | discriminate ].
      intros _ _. exists n. split; [ reflexivity | assumption ].
    + discriminate.
  - intros H. injection H as <-. discriminate.
Qed.

(** [Start], spelled out. *)
Lemma Start_unfold (st : State) :
  Start st
  = if Py.truthy_str (_pod_name (fst st)) then
      (Raise (AssertionError "You cannot start model server multiple times."),
       st)
    else
      match fst (_BuildPodManifest st) with
      | Raise e => (Raise e, st)
      | Return body =>
        let w := emit (EvCreate (_namespace (fst st)) body) (snd st) in
        match create_namespaced_pod (cluster w) (_namespace (fst st)) body with
        | Raise e => (Raise e, (fst st, w))
        | Return pod =>
          (Return tt,
           (set_pod_name (fst st) (V1ObjectMeta.name (V1Pod.metadata pod)),
            emit (EvLog INFO "Created Pod:\n%s") w))
        end
      end.
Proof.
  pose proof (_BuildPodManifest_pure st) as Hpure.
  destruct st as [self w].
  unfold Start, bind at 1, get_self. unfold bind at 1, assert. simpl.
  destruct (Py.truthy_str (_pod_name self)); simpl; [ reflexivity | ].
  unfold bind at 1.
  destruct (_BuildPodManifest (self, w)) as [[body|e] st1];
    simpl in Hpure; subst st1; simpl; [ | reflexivity ].
  unfold bind, k8s_create_namespaced_pod, put_self, logging; simpl.
  destruct (create_namespaced_pod (cluster w) (_namespace self) body);
    reflexivity.
Qed.

(** [Start] submits the manifest that [_BuildPodManifest] builds. *)
Lemma Start_submits (st : State) (body : V1Pod.t) (st1 : State) :
  Py.truthy_str (_pod_name (fst st)) = false ->
  _BuildPodManifest st = (Return body, st1) ->
  exists rest,
    trace (snd (snd (Start st)))
    = (trace (snd st) ++ EvCreate (_namespace (fst st)) body :: rest)%list.
Proof.
  intros Hfresh Hbuild.
  rewrite Start_unfold, Hfresh, Hbuild. simpl.
  destruct (create_namespaced_pod _ _ _); simpl.
  - exists [EvLog INFO "Created Pod:\n%s"].
    rewrite <- app_assoc. reflexivity.
  - exists []. reflexivity.
Qed.

(** [Start] never touches [self._endpoint]. *)
Lemma Start_keeps_endpoint (st : State) :
  _endpoint (fst (snd (Start st))) = _endpoint (fst st).
Proof.
  rewrite Start_unfold.
  destruct (Py.truthy_str _); [ reflexivity | ].
  destruct (fst (_BuildPodManifest st)); [ | reflexivity ].
  simpl. destruct (create_namespaced_pod _ _ _); reflexivity.
Qed.

(** A runner that [__init__] returns has neither a pod nor an endpoint. *)
Lemma __init___fresh env model_path serving_binary serving_spec self :
  __init__ env model_path serving_binary serving_spec = Return self ->
  _pod_name self = None /\ _endpoint self = None
  /\ _config self = ServingSpec.kubernetes serving_spec
  /\ _serving_binary self = serving_binary.
Proof.
  unfold __init__. intros H.
  repeat match type of H with
         | match ?x with _ => _ end = _ => destruct x; try discriminate
         | (if ?x then _ else _) = _ => destruct x; try discriminate
         end.
  injection H as <-. simpl. auto.
Qed.

(** C5.  A negative [active_deadline_seconds] makes [Start], on a runner
    that has not been started, fail with a configuration error raised by
    [_BuildPodManifest]: the [ValueError] of the deadline check, or, for a
    serving binary that is not supported, the [NotImplementedError] that
    precedes it.  The state is the one before the call, so no creation
    request has reached the orchestrator. *)
Theorem Start_rejects_negative_deadline (st : State) (n : Z) :
  KubernetesConfig.active_deadline_seconds (_config (fst st)) = Some n ->
  n < 0 ->
  Py.truthy_str (_pod_name (fst st)) = false ->
  exists e,
    _BuildPodManifest st = (Raise e, st)
    /\ Start st = (Raise e, st)
    /\ is_configuration_error e = true
    /\ filter is_create (trace (snd (snd (Start st))))
       = filter is_create (trace (snd st))
    /\ (serving_bins.class_of (_serving_binary (fst st))
        = serving_bins.TensorFlowServing ->
        e = ValueError ("active_deadline_seconds should be > 0. Got "
                        ++ Py.str_of_int n)).
Proof.
  intros Hcfg Hneg Hfresh.
  assert (Hbuild : exists e,
             _BuildPodManifest st = (Raise e, st)
             /\ is_configuration_error e = true
             /\ (serving_bins.class_of (_serving_binary (fst st))
                 = serving_bins.TensorFlowServing ->
                 e = ValueError ("active_deadline_seconds should be > 0. Got "
                                 ++ Py.str_of_int n))).
  { destruct st as [self w]. simpl in *. run_monad.
    destruct (serving_bins.class_of (_serving_binary self)) as [|ty]; simpl.
    - rewrite Hcfg. unfold Py.int_or.
      replace (n =? 0) with false by (symmetry; apply Z.eqb_neq; lia).
      replace (n <? 0) with true by (symmetry; apply Z.ltb_lt; lia).
      eexists. split; [ reflexivity | ]. split; [ reflexivity | ].
      intros _. reflexivity.
    - eexists. split; [ reflexivity | ]. split; [ reflexivity | ].
      discriminate. }
  destruct Hbuild as (e & Hbuild & Hconf & Hmsg).
  assert (Hstart : Start st = (Raise e, st)).
  { rewrite Start_unfold, Hfresh, Hbuild. reflexivity. }
  exists e. repeat split; auto.
  rewrite Hstart. reflexivity.
Qed.

Lemma Start_rejects_negative_deadline_witness :
  let st := (Fixture.runner (Some (-1)), Fixture.world Fixture.failing) in
  KubernetesConfig.active_deadline_seconds (_config (fst st)) = Some (-1)
  /\ -1 < 0
  /\ Py.truthy_str (_pod_name (fst st)) = false
  /\ exists e,
      _BuildPodManifest st = (Raise e, st)
      /\ Start st = (Raise e, st)
      /\ is_configuration_error e = true
      /\ filter is_create (trace (snd (snd (Start st))))
         = filter is_create (trace (snd st))
      /\ (serving_bins.class_of (_serving_binary (fst st))
          = serving_bins.TensorFlowServing ->
          e = ValueError ("active_deadline_seconds should be > 0. Got "
                          ++ Py.str_of_int (-1))).
Proof.
  intros st.
  split; [ reflexivity | ]. split; [ lia | ]. split; [ reflexivity | ].
  apply (Start_rejects_negative_deadline st (-1));
    [ reflexivity | lia | reflexivity ].
Defined.

Example Start_with_deadline_minus_one :
  Start (Fixture.runner (Some (-1)), Fixture.world Fixture.failing)
  = (Raise (ValueError "active_deadline_seconds should be > 0. Got -1"),
     (Fixture.runner (Some (-1)), Fixture.world Fixture.failing)).
Proof. reflexivity. Qed.

(** C6.  With [active_deadline_seconds] unset, every manifest that
    [_BuildPodManifest] builds carries a hard deadline of 86400 seconds,
    and it is the manifest [Start] submits. *)
Theorem unset_deadline_defaults_to_86400
  (st : State) (body : V1Pod.t) (st1 : State) :
  KubernetesConfig.active_deadline_seconds (_config (fst st)) = None ->
  _BuildPodManifest st = (Return body, st1) ->
  V1PodSpec.active_deadline_seconds (V1Pod.spec body) = Some 86400
  /\ (Py.truthy_str (_pod_name (fst st)) = false ->
      exists rest,
        trace (snd (snd (Start st)))
        = (trace (snd st)
             ++ EvCreate (_namespace (fst st)) body :: rest)%list).
Proof.
  intros Hunset Hbuild. split.
  - rewrite (_BuildPodManifest_deadline _ _ _ Hbuild), Hunset. reflexivity.
  - intros Hfresh. exact (Start_submits _ _ _ Hfresh Hbuild).
Qed.

Lemma unset_deadline_defaults_to_86400_witness :
  let st := (Fixture.runner None, Fixture.world Fixture.failing) in
  exists body,
    KubernetesConfig.active_deadline_seconds (_config (fst st)) = None
    /\ _BuildPodManifest st = (Return body, st)
    /\ V1PodSpec.active_deadline_seconds (V1Pod.spec body) = Some 86400
    /\ (Py.truthy_str (_pod_name (fst st)) = false ->
        exists rest,
          trace (snd (snd (Start st)))
          = (trace (snd st)
               ++ EvCreate (_namespace (fst st)) body :: rest)%list).
Proof.
  intros st. eexists.
  split; [ reflexivity | ]. split; [ reflexivity | ].
  apply (unset_deadline_defaults_to_86400 st _ st); reflexivity.
Defined.

(** C10.  A deadline set to 0 is handled as an unset one: manifest
    construction and [Start] give the same result and make the same calls
    for both, no [ValueError] is raised, a manifest that is built carries
    86400 seconds (and one is built for a supported serving binary), and
    the [ValueError] is raised for negative values only. *)
Theorem zero_deadline_is_unset (self : KubernetesRunner) (w : World) :
  let zero := (with_active_deadline_seconds self (Some 0), w) in
  let unset := (with_active_deadline_seconds self None, w) in
  fst (_BuildPodManifest zero) = fst (_BuildPodManifest unset)
  /\ fst (Start zero) = fst (Start unset)
  /\ snd (snd (Start zero)) = snd (snd (Start unset))
  /\ (forall e, fst (_BuildPodManifest zero) = Raise e ->
                is_ValueError e = false)
  /\ (forall body,
         fst (_BuildPodManifest zero) = Return body ->
         V1PodSpec.active_deadline_seconds (V1Pod.spec body) = Some 86400)
  /\ (serving_bins.class_of (_serving_binary self)
      = serving_bins.TensorFlowServing ->
      exists body, fst (_BuildPodManifest zero) = Return body)
  /\ (forall d e,
         fst (_BuildPodManifest (with_active_deadline_seconds self d, w))
         = Raise e ->
         is_ValueError e = true ->
         exists n, d = Some n /\ n < 0).
Proof.
  intros zero unset.
  assert (Hsame : fst (_BuildPodManifest zero) = fst (_BuildPodManifest unset)).
  { unfold zero, unset. run_monad.
    destruct (serving_bins.class_of (_serving_binary self)); reflexivity. }
  split; [ exact Hsame | ].
  assert (Hcalls : fst (Start zero) = fst (Start unset)
                   /\ snd (snd (Start zero)) = snd (snd (Start unset))).
  { rewrite !Start_unfold, Hsame. unfold zero, unset. simpl.
    destruct (Py.truthy_str (_pod_name self)); [ split; reflexivity | ].
    fold unset.
    destruct (fst (_BuildPodManifest unset)) as [body|e];
      [ | split; reflexivity ].
    simpl.
    destruct (create_namespaced_pod (cluster w) (_namespace self) body);
      split; reflexivity. }
  destruct Hcalls as [Hres Hworld].
  split; [ exact Hres | ]. split; [ exact Hworld | ].
  split; [ | split; [ | split ] ].
  - intros e He.
    destruct (is_ValueError e) eqn:Hv; [ | reflexivity ].
    destruct (_BuildPodManifest_ValueError zero e He Hv) as (n & Hn & Hlt).
    simpl in Hn. injection Hn as <-. lia.
  - intros body Hbody.
    destruct (_BuildPodManifest zero) as [r s] eqn:Hb. simpl in Hbody.
    subst r.
    rewrite (_BuildPodManifest_deadline _ _ _ Hb). reflexivity.
  - intros Htfs. unfold zero. run_monad. rewrite Htfs. simpl.
    eexists. reflexivity.
  - intros d e He Hv.
    destruct (_BuildPodManifest_ValueError _ e He Hv) as (n & Hn & Hlt).
    simpl in Hn. exists n. auto.
Qed.

(** C9.  On a runner fresh from [__init__], [GetEndpoint] called right
    after [Start], whatever [Start] did, raises the assertion error that
    says the endpoint is not ready; it returns no string. *)
Theorem GetEndpoint_after_Start_not_ready
  env model_path serving_binary serving_spec (self : KubernetesRunner)
  (w : World) :
  __init__ env model_path serving_binary serving_spec = Return self ->
  let st' := snd (Start (self, w)) in
  GetEndpoint st'
  = (Raise (AssertionError
              ("self._endpoint is not ready. You should call Start() and "
               ++ "WaitUntilRunning() first.")),
     st')
  /\ forall endpoint, fst (GetEndpoint st') <> Return endpoint.
Proof.
  intros Hinit st'.
  destruct (__init___fresh _ _ _ _ _ Hinit) as (_ & Hend & _).
  pose proof (Start_keeps_endpoint (self, w)) as Hkeep.
  fold st' in Hkeep. simpl in Hkeep. rewrite Hend in Hkeep.
  assert (H : GetEndpoint st'
              = (Raise (AssertionError
                          ("self._endpoint is not ready. You should call Start() and "
                           ++ "WaitUntilRunning() first.")),
                 st')).
  { unfold GetEndpoint, bind, get_self. rewrite Hkeep. reflexivity. }
  split; [ exact H | ].
  intros endpoint. rewrite H. discriminate.
Qed.

Lemma GetEndpoint_after_Start_not_ready_witness :
  let w := Fixture.world Fixture.flaky_then_running in
  let self := Fixture.runner None in
  __init__ Fixture.kfp "/model" Fixture.tensorflow_serving
           (Fixture.serving_spec None) = Return self
  /\ fst (Start (self, w)) = Return tt
  /\ GetEndpoint (snd (Start (self, w)))
     = (Raise (AssertionError
                 ("self._endpoint is not ready. You should call Start() and "
                  ++ "WaitUntilRunning() first.")),
        snd (Start (self, w))).
Proof.
  intros w self.
  split; [ reflexivity | ]. split; [ reflexivity | ].
  apply (GetEndpoint_after_Start_not_ready Fixture.kfp "/model"
           Fixture.tensorflow_serving (Fixture.serving_spec None) self w).
  reflexivity.
Defined.

(** ** One status query *)

Lemma poll_cases (st : State) : poll_case st (poll st).
Proof.
  destruct st as [self w].
  unfold poll, bind at 1, get_self. simpl.
  unfold bind at 1, try_except_ApiException, bind at 1,
    k8s_read_namespaced_pod. simpl.
  destruct (read_namespaced_pod (cluster w) (reads w) (_pod_name self)
              (_namespace self)) as [pod|e] eqn:Hresp.
  - simpl.
    destruct (Py.str_eq (V1PodStatus.phase (V1Pod.status pod))
                _POD_PHASE_RUNNING
              && Py.truthy_str (V1PodStatus.pod_ip (V1Pod.status pod)))
      eqn:Hready.
    + apply (poll_ready (self, w) pod); assumption.
    + destruct (Py.str_eq (V1PodStatus.phase (V1Pod.status pod))
                  _POD_PHASE_SUCCEEDED
                || Py.str_eq (V1PodStatus.phase (V1Pod.status pod))
                     _POD_PHASE_FAILED) eqn:Hover.
      * apply (poll_over (self, w) pod); assumption.
      * apply (poll_not_yet (self, w) pod); assumption.
  - destruct e as [m|m|m|m|m|status];
      try (apply (poll_other_error (self, w)); [ exact Hresp | discriminate ]).
    apply (poll_api_error (self, w) status). exact Hresp.
Qed.

(** What a query and a wait leave alone, and what they change. *)
Lemma queried_fields (st : State) :
  fst (queried st) = fst st
  /\ cluster (snd (queried st)) = cluster (snd st)
  /\ reads (snd (queried st)) = S (reads (snd st))
  /\ deletes (snd (queried st)) = deletes (snd st)
  /\ clock (snd (queried st))
     = clock (snd st)
       + Z.of_N (read_latency (cluster (snd st)) (reads (snd st)))
  /\ trace (snd (queried st))
     = (trace (snd st)
          ++ [EvRead (_pod_name (fst st)) (_namespace (fst st))])%list.
Proof. destruct st as [self w]. repeat split. Qed.

Lemma waited_fields (msg : string) (st : State) :
  fst (waited msg st) = fst st
  /\ cluster (snd (waited msg st)) = cluster (snd st)
  /\ reads (snd (waited msg st)) = reads (snd st)
  /\ deletes (snd (waited msg st)) = deletes (snd st)
  /\ clock (snd (waited msg st))
     = clock (snd st) + _DEFAULT_POLLING_INTERVAL_SEC
  /\ trace (snd (waited msg st))
     = (trace (snd st)
          ++ [EvLog INFO msg; EvSleep _DEFAULT_POLLING_INTERVAL_SEC])%list.
Proof.
  destruct st as [self w]. unfold waited, bind, logging, time_sleep. simpl.
  repeat split. rewrite <- app_assoc. reflexivity.
Qed.

(** A turn leaves the pod name, the namespace, the serving binary and the
    cluster alone, makes exactly one status query, and starts with it. *)
Lemma poll_frame (st : State) (r : result flow) (st' : State) :
  poll st = (r, st') ->
  _pod_name (fst st') = _pod_name (fst st)
  /\ _namespace (fst st') = _namespace (fst st)
  /\ _serving_binary (fst st') = _serving_binary (fst st)
  /\ cluster (snd st') = cluster (snd st)
  /\ reads (snd st') = S (reads (snd st))
  /\ deletes (snd st') = deletes (snd st)
  /\ exists more,
      trace (snd st')
      = (trace (snd st)
           ++ EvRead (_pod_name (fst st)) (_namespace (fst st)) :: more)%list.
Proof.
  intros Hpoll. pose proof (poll_cases st) as Hcase. rewrite Hpoll in Hcase.
  destruct (queried_fields st) as (Hq1 & Hq2 & Hq3 & Hq4 & _ & Hq6).
  inversion Hcase; subst; clear Hcase;
    try match goal with
        | |- context [waited ?msg ?s] =>
          destruct (waited_fields msg s) as (Hw1 & Hw2 & Hw3 & Hw4 & _ & Hw6);
            rewrite ?Hw1, ?Hw2, ?Hw3, ?Hw4, ?Hw6
        end;
    rewrite ?Hq1, ?Hq2, ?Hq3, ?Hq4, ?Hq6; simpl;
    rewrite ?Hq2, ?Hq3, ?Hq4, ?Hq6;
    repeat (split; [ reflexivity | ]);
    try (rewrite <- app_assoc; simpl);
    eexists; reflexivity.
Qed.

(** A turn that falls through to the next one has slept for the polling
    interval. *)
Lemma poll_NextTurn_clock (st st' : State) :
  poll st = (Return NextTurn, st') ->
  clock (snd st) + _DEFAULT_POLLING_INTERVAL_SEC <= clock (snd st').
Proof.
  intros Hpoll. pose proof (poll_cases st) as Hcase. rewrite Hpoll in Hcase.
  destruct (queried_fields st) as (_ & _ & _ & _ & Hq5 & _).
  inversion Hcase; subst; clear Hcase;
    match goal with
    | |- context [waited ?msg ?s] =>
      destruct (waited_fields msg s) as (_ & _ & _ & _ & Hw5 & _);
        rewrite Hw5, Hq5
    end; lia.
Qed.

Lemma response_frame (st st' : State) :
  _pod_name (fst st') = _pod_name (fst st) ->
  _namespace (fst st') = _namespace (fst st) ->
  cluster (snd st') = cluster (snd st) ->
  forall k, response st' k = response st k.
Proof. intros H1 H2 H3 k. unfold response. rewrite H1, H2, H3. reflexivity. Qed.

(** ** The loop *)

Lemma wait_loop_Run (fuel : nat) (deadline : Z) :
  forall st out, wait_loop fuel deadline st = Some out -> Run deadline st out.
Proof.
  induction fuel as [|fuel IH]; intros st out H; simpl in H;
    [ discriminate | ].
  destruct (Z.ltb_spec (clock (snd st)) deadline) as [Hlt|Hge].
  - destruct (poll st) as [[[|]|e] st'] eqn:Hpoll.
    + eapply Run_next; eauto.
    + injection H as <-. eapply Run_return; eauto.
    + injection H as <-. eapply Run_raise; eauto.
  - injection H as <-. apply Run_timeout. exact Hge.
Qed.

Lemma Run_wait_loop (deadline : Z) (st : State) (out : result unit * State) :
  Run deadline st out ->
  exists fuel,
    forall fuel', (fuel <= fuel')%nat ->
                  wait_loop fuel' deadline st = Some out.
Proof.
  induction 1 as [st Hge|st st' out Hlt Hpoll _ [fuel IH]
                  |st st' Hlt Hpoll|st st' e Hlt Hpoll].
  - exists 1%nat. intros [|fuel'] Hle; [ lia | ]. simpl.
    destruct (Z.ltb_spec (clock (snd st)) deadline); [ lia | reflexivity ].
  - exists (S fuel). intros [|fuel'] Hle; [ lia | ]. simpl.
    destruct (Z.ltb_spec (clock (snd st)) deadline); [ | lia ].
    rewrite Hpoll. apply IH. lia.
  - exists 1%nat. intros [|fuel'] Hle; [ lia | ]. simpl.
    destruct (Z.ltb_spec (clock (snd st)) deadline); [ | lia ].
    rewrite Hpoll. reflexivity.
  - exists 1%nat. intros [|fuel'] Hle; [ lia | ]. simpl.
    destruct (Z.ltb_spec (clock (snd st)) deadline); [ | lia ].
    rewrite Hpoll. reflexivity.
Qed.

(** The loop ends: every turn that does not end it moves the clock five
    seconds towards the deadline. *)
Lemma Run_total (deadline : Z) (st : State) : exists out, Run deadline st out.
Proof.
  remember (Z.to_nat (deadline - clock (snd st))) as n eqn:Hn.
  revert st Hn.
  induction n as [n IH] using lt_wf_ind. intros st Hn.
  destruct (Z_lt_le_dec (clock (snd st)) deadline) as [Hlt|Hge].
  - destruct (poll st) as [[[|]|e] st'] eqn:Hpoll.
    + pose proof (poll_NextTurn_clock _ _ Hpoll) as Hclock.
      unfold _DEFAULT_POLLING_INTERVAL_SEC in Hclock.
      destruct (IH (Z.to_nat (deadline - clock (snd st')))) with (st := st')
        as [out Hout]; [ lia | reflexivity | ].
      exists out. eapply Run_next; eauto.
    + eexists. eapply Run_return; eauto.
    + eexists. eapply Run_raise; eauto.
  - eexists. apply Run_timeout. exact Hge.
Qed.

Lemma Run_deterministic (deadline : Z) (st : State) out1 out2 :
  Run deadline st out1 -> Run deadline st out2 -> out1 = out2.
Proof.
  intros H1. revert out2.
  induction H1; intros out2 H2; inversion H2; subst;
    try lia; try congruence.
  apply IHRun.
  match goal with
  | Ha : poll ?s = (_, ?a), Hb : poll ?s = (_, ?b) |- _ =>
    rewrite Ha in Hb; injection Hb as <-
  end.
  assumption.
Qed.

(** [WaitUntilRunning] returns, for every bound from some bound on, and
    what it returns is a run of the loop. *)
Lemma WaitUntilRunning_total (deadline : Z) (st : State) :
  Py.truthy_str (_pod_name (fst st)) = true ->
  exists fuel out,
    Run deadline st out
    /\ forall fuel', (fuel <= fuel')%nat ->
                     WaitUntilRunning fuel' deadline st = Some out.
Proof.
  intros Hstarted.
  destruct (Run_total deadline st) as [out Hrun].
  destruct (Run_wait_loop _ _ _ Hrun) as [fuel Hfuel].
  exists fuel, out. split; [ exact Hrun | ].
  intros fuel' Hle. unfold WaitUntilRunning. rewrite Hstarted. auto.
Qed.

Lemma WaitUntilRunning_Run (fuel : nat) (deadline : Z) (st : State) out :
  Py.truthy_str (_pod_name (fst st)) = true ->
  WaitUntilRunning fuel deadline st = Some out ->
  Run deadline st out.
Proof.
  unfold WaitUntilRunning. intros ->. apply wait_loop_Run.
Qed.

(** The turn that an answer decides. *)
Lemma poll_on_ready (st : State) (pod : V1Pod.t) :
  response st (reads (snd st)) = Return pod ->
  is_ready pod = true ->
  poll st
  = (Return Returned,
     (set_endpoint (fst st) (Some (endpoint_of (fst st) pod)),
      snd (queried st))).
Proof.
  intros Hresp Hready. destruct (poll_cases st); congruence.
Qed.

Lemma poll_on_over (st : State) (pod : V1Pod.t) :
  response st (reads (snd st)) = Return pod ->
  is_over pod = true ->
  is_ready pod = false
  /\ poll st
     = (Raise (JobAborted
                 ("Job has been aborted. (phase="
                  ++ Py.str_of_opt (V1PodStatus.phase (V1Pod.status pod))
                  ++ ")")),
        queried st).
Proof.
  intros Hresp Hover.
  assert (Hready : is_ready pod = false).
  { unfold is_ready, is_over, Py.str_eq in *.
    destruct (V1PodStatus.phase (V1Pod.status pod)) as [ph|];
      [ | reflexivity ].
    destruct (String.eqb_spec ph _POD_PHASE_RUNNING) as [->|];
      [ discriminate | reflexivity ]. }
  split; [ exact Hready | ].
  destruct (poll_cases st); congruence.
Qed.


(** A run leaves the pod name, the namespace, the serving binary and the
    cluster alone; it only adds status queries and events. *)
Lemma Run_frame (deadline : Z) (st : State) (out : result unit * State) :
  Run deadline st out ->
  _pod_name (fst (snd out)) = _pod_name (fst st)
  /\ _namespace (fst (snd out)) = _namespace (fst st)
  /\ _serving_binary (fst (snd out)) = _serving_binary (fst st)
  /\ cluster (snd (snd out)) = cluster (snd st)
  /\ (reads (snd st) <= reads (snd (snd out)))%nat
  /\ deletes (snd (snd out)) = deletes (snd st)
  /\ trace (snd (snd out))
     = (trace (snd st) ++ events_since st (snd out))%list.
Proof.
  assert (Hsince : forall (a b : State) more,
             trace (snd b) = (trace (snd a) ++ more)%list ->
             trace (snd b) = (trace (snd a) ++ events_since a b)%list).
  { intros a b more H. unfold events_since. rewrite H at 2.
    rewrite skipn_app, skipn_all, Nat.sub_diag. exact H. }
  induction 1 as [st Hge|st st' out Hlt Hpoll _ IH
                  |st st' Hlt Hpoll|st st' e Hlt Hpoll]; simpl.
  - repeat (split; [ reflexivity || lia | ]).
    apply (Hsince st st []). rewrite app_nil_r. reflexivity.
  - destruct (poll_frame _ _ _ Hpoll)
      as (H1 & H2 & H3 & H4 & H5 & H6 & more & H7).
    destruct IH as (I1 & I2 & I3 & I4 & I5 & I6 & I7).
    rewrite I1, I2, I3, I4, I6.
    repeat (split; [ assumption || lia | ]).
    eapply Hsince. rewrite I7, H7, <- app_assoc. reflexivity.
  - destruct (poll_frame _ _ _ Hpoll)
      as (H1 & H2 & H3 & H4 & H5 & H6 & more & H7).
    repeat (split; [ assumption || lia | ]).
    eapply Hsince. exact H7.
  - destruct (poll_frame _ _ _ Hpoll)
      as (H1 & H2 & H3 & H4 & H5 & H6 & more & H7).
    repeat (split; [ assumption || lia | ]).
    eapply Hsince. exact H7.
Qed.

(** A run in which a status query finds the pod running, with an address,
    ends right there, with the endpoint resolved. *)
Lemma Run_ready (deadline : Z) (st : State) (out : result unit * State) :
  Run deadline st out ->
  forall k pod,
    polled st (snd out) k ->
    response st k = Return pod ->
    is_ready pod = true ->
    fst out = Return tt
    /\ _endpoint (fst (snd out)) = Some (endpoint_of (fst st) pod)
    /\ reads (snd (snd out)) = S k.
Proof.
  unfold polled.
  induction 1 as [st Hge|st st' out Hlt Hpoll Hrun IH
                  |st st' Hlt Hpoll|st st' e Hlt Hpoll];
    intros k pod Hk Hresp Hready; simpl in *.
  - lia.
  - destruct (poll_frame _ _ _ Hpoll) as (H1 & H2 & H3 & H4 & H5 & _).
    destruct (Nat.eq_dec k (reads (snd st))) as [->|Hne].
    + rewrite (poll_on_ready _ _ Hresp Hready) in Hpoll. discriminate.
    + unfold endpoint_of. rewrite <- H3. apply IH; [ lia | | exact Hready ].
      rewrite (response_frame st st' H1 H2 H4). exact Hresp.
  - destruct (poll_frame _ _ _ Hpoll) as (_ & _ & _ & _ & H5 & _).
    assert (k = reads (snd st)) as -> by lia.
    rewrite (poll_on_ready _ _ Hresp Hready) in Hpoll.
    injection Hpoll as <-. simpl.
    destruct (queried_fields st) as (_ & _ & Hq & _). auto.
  - destruct (poll_frame _ _ _ Hpoll) as (_ & _ & _ & _ & H5 & _).
    assert (k = reads (snd st)) as -> by lia.
    rewrite (poll_on_ready _ _ Hresp Hready) in Hpoll. discriminate.
Qed.

(** A run in which a status query finds the pod succeeded or failed ends
    right there, with [JobAborted]. *)
Lemma Run_over (deadline : Z) (st : State) (out : result unit * State) :
  Run deadline st out ->
  forall k pod,
    polled st (snd out) k ->
    response st k = Return pod ->
    is_over pod = true ->
    fst out
    = Raise (JobAborted
               ("Job has been aborted. (phase="
                ++ Py.str_of_opt (V1PodStatus.phase (V1Pod.status pod))
                ++ ")"))
    /\ reads (snd (snd out)) = S k
    /\ _endpoint (fst (snd out)) = _endpoint (fst st).
Proof.
  unfold polled.
  induction 1 as [st Hge|st st' out Hlt Hpoll Hrun IH
                  |st st' Hlt Hpoll|st st' e Hlt Hpoll];
    intros k pod Hk Hresp Hover; simpl in *.
  - lia.
  - destruct (poll_frame _ _ _ Hpoll) as (H1 & H2 & H3 & H4 & H5 & _).
    destruct (Nat.eq_dec k (reads (snd st))) as [->|Hne].
    + destruct (poll_on_over _ _ Hresp Hover) as [_ Hp].
      rewrite Hp in Hpoll. discriminate.
    + assert (Hend : _endpoint (fst st') = _endpoint (fst st)).
      { pose proof (poll_cases st) as Hcase. rewrite Hpoll in Hcase.
        inversion Hcase; subst;
          match goal with
          | |- context [waited ?msg ?s] =>
            destruct (waited_fields msg s) as (-> & _)
          end;
          destruct (queried_fields st) as (-> & _); reflexivity. }
      rewrite <- Hend. apply IH; [ lia | | exact Hover ].
      rewrite (response_frame st st' H1 H2 H4). exact Hresp.
  - destruct (poll_frame _ _ _ Hpoll) as (_ & _ & _ & _ & H5 & _).
    assert (k = reads (snd st)) as -> by lia.
    destruct (poll_on_over _ _ Hresp Hover) as [_ Hp].
    rewrite Hp in Hpoll. discriminate.
  - destruct (poll_frame _ _ _ Hpoll) as (_ & _ & _ & _ & H5 & _).
    assert (k = reads (snd st)) as -> by lia.
    destruct (poll_on_over _ _ Hresp Hover) as [_ Hp].
    rewrite Hp in Hpoll. injection Hpoll as <- <-.
    destruct (queried_fields st) as (Hq1 & _ & Hq3 & _).
    rewrite Hq1. auto.
Qed.

Lemma events_since_app (a b : State) (more : list event) :
  trace (snd b) = (trace (snd a) ++ more)%list ->
  events_since a b = more.
Proof.
  intros H. unfold events_since. rewrite H.
  rewrite skipn_app, skipn_all, Nat.sub_diag. reflexivity.
Qed.




(** With a client that fails with [ApiException] only, a run ends in one
    of three ways. *)
Lemma Run_outcome (deadline : Z) (st : State) (out : result unit * State) :
  Run deadline st out ->
  fails_with_ApiException_only (cluster (snd st)) ->
  fst out = Return tt
  \/ (exists msg, fst out = Raise (JobAborted msg))
  \/ (fst out
      = Raise (DeadlineExceeded
                 "Deadline exceeded while waiting for pod to be running.")
      /\ deadline <= clock (snd (snd out))).
Proof.
  induction 1 as [st Hge|st st' out Hlt Hpoll _ IH
                  |st st' Hlt Hpoll|st st' e Hlt Hpoll];
    intros Hapi; simpl.
  - right. right. split; [ reflexivity | exact Hge ].
  - apply IH.
    destruct (poll_frame _ _ _ Hpoll) as (_ & _ & _ & -> & _).
    exact Hapi.
  - left. reflexivity.
  - right. left.
    pose proof (poll_cases st) as Hcase. rewrite Hpoll in Hcase.
    inversion Hcase as [ |e' Hresp Hne| | | ]; subst.
    + destruct (Hapi _ _ _ _ Hresp) as [status ->].
      destruct (Hne status). reflexivity.
    + eexists. reflexivity.
Qed.


(** ** [WaitUntilRunning] *)

(** C1.  [WaitUntilRunning] on a started runner returns; and if one of the
    status queries it made found the pod in phase "Running" with a
    non-empty address, it returned normally right after that query, with
    the endpoint set to the address, a colon and the container port of
    the serving binary. *)
Theorem WaitUntilRunning_resolves_endpoint
  (deadline : Z) (st : State) (k : nat) (pod : V1Pod.t) (ip : string) :
  Py.truthy_str (_pod_name (fst st)) = true ->
  response st k = Return pod ->
  V1PodStatus.phase (V1Pod.status pod) = Some "Running" ->
  V1PodStatus.pod_ip (V1Pod.status pod) = Some ip ->
  ip <> "" ->
  exists fuel out,
    (forall fuel', (fuel <= fuel')%nat ->
                   WaitUntilRunning fuel' deadline st = Some out)
    /\ (forall fuel' out',
           WaitUntilRunning fuel' deadline st = Some out' -> out' = out)
    /\ (polled st (snd out) k ->
        fst out = Return tt
        /\ _endpoint (fst (snd out))
           = Some (ip ++ ":"
                   ++ Py.str_of_int
                        (serving_bins.container_port
                           (_serving_binary (fst st))))
        /\ reads (snd (snd out)) = S k).
Proof.
  intros Hstarted Hresp Hphase Hip Hne.
  destruct (WaitUntilRunning_total deadline st Hstarted)
    as (fuel & out & Hrun & Hfuel).
  exists fuel, out. split; [ exact Hfuel | ]. split.
  - intros fuel' out' H'.
    apply (Run_deterministic deadline st); [ | exact Hrun ].
    exact (WaitUntilRunning_Run _ _ _ _ Hstarted H').
  - intros Hk.
    assert (Hready : is_ready pod = true).
    { unfold is_ready. rewrite Hphase, Hip. simpl.
      destruct (String.eqb_spec ip ""); [ contradiction | reflexivity ]. }
    destruct (Run_ready _ _ _ Hrun k pod Hk Hresp Hready) as (R1 & R2 & R3).
    unfold endpoint_of in R2. rewrite Hip in R2. simpl in R2. auto.
Qed.

Lemma WaitUntilRunning_resolves_endpoint_witness :
  let st := Fixture.started Fixture.flaky_then_running in
  let pod := Fixture.a_pod Fixture.server (Some "Running") (Some "10.1.2.3") in
  Py.truthy_str (_pod_name (fst st)) = true
  /\ response st 3 = Return pod
  /\ exists out,
      WaitUntilRunning 4 1100 st = Some out
      /\ polled st (snd out) 3
      /\ fst out = Return tt
      /\ _endpoint (fst (snd out)) = Some "10.1.2.3:8500"
      /\ reads (snd (snd out)) = 4%nat.
Proof.
  intros st pod.
  split; [ reflexivity | ]. split; [ reflexivity | ].
  destruct (WaitUntilRunning_resolves_endpoint 1100 st 3 pod "10.1.2.3")
    as (fuel & out & _ & Hsame & Hend);
    [ reflexivity | reflexivity | reflexivity | reflexivity | discriminate | ].
  exists out.
  assert (Hout : WaitUntilRunning 4 1100 st = Some out).
  { destruct (WaitUntilRunning 4 1100 st) as [out'|] eqn:E;
      [ | vm_compute in E; discriminate ].
    rewrite (Hsame 4%nat out' E). reflexivity. }
  assert (Hk : polled st (snd out) 3).
  { vm_compute in Hout. injection Hout as <-. vm_compute. lia. }
  split; [ exact Hout | ]. split; [ exact Hk | ].
  exact (Hend Hk).
Defined.

(** C3.  If one of the status queries [WaitUntilRunning] made found the
    pod in phase "Succeeded" or "Failed", the method raised [JobAborted]
    with that phase in its message, and that query was its last one. *)
Theorem WaitUntilRunning_aborts_on_terminal_phase
  (deadline : Z) (st : State) (k : nat) (pod : V1Pod.t) (phase : string) :
  Py.truthy_str (_pod_name (fst st)) = true ->
  response st k = Return pod ->
  V1PodStatus.phase (V1Pod.status pod) = Some phase ->
  phase = "Succeeded" \/ phase = "Failed" ->
  exists fuel out,
    (forall fuel', (fuel <= fuel')%nat ->
                   WaitUntilRunning fuel' deadline st = Some out)
    /\ (forall fuel' out',
           WaitUntilRunning fuel' deadline st = Some out' -> out' = out)
    /\ (polled st (snd out) k ->
        fst out
        = Raise (JobAborted ("Job has been aborted. (phase=" ++ phase ++ ")"))
        /\ reads (snd (snd out)) = S k
        /\ _endpoint (fst (snd out)) = _endpoint (fst st)).
Proof.
  intros Hstarted Hresp Hphase Hterminal.
  destruct (WaitUntilRunning_total deadline st Hstarted)
    as (fuel & out & Hrun & Hfuel).
  exists fuel, out. split; [ exact Hfuel | ]. split.
  - intros fuel' out' H'.
    apply (Run_deterministic deadline st); [ | exact Hrun ].
    exact (WaitUntilRunning_Run _ _ _ _ Hstarted H').
  - intros Hk.
    assert (Hover : is_over pod = true).
    { unfold is_over. rewrite Hphase.
      destruct Hterminal as [-> | ->]; reflexivity. }
    destruct (Run_over _ _ _ Hrun k pod Hk Hresp Hover) as (R1 & R2 & R3).
    rewrite Hphase in R1. simpl in R1. auto.
Qed.

Lemma WaitUntilRunning_aborts_on_terminal_phase_witness :
  let st := Fixture.started Fixture.failing in
  let pod := Fixture.a_pod Fixture.server (Some "Failed") None in
  Py.truthy_str (_pod_name (fst st)) = true
  /\ response st 1 = Return pod
  /\ exists out,
      WaitUntilRunning 2 1100 st = Some out
      /\ polled st (snd out) 1
      /\ fst out
         = Raise (JobAborted "Job has been aborted. (phase=Failed)")
      /\ reads (snd (snd out)) = 2%nat
      /\ _endpoint (fst (snd out)) = None.
Proof.
  intros st pod.
  split; [ reflexivity | ]. split; [ reflexivity | ].
  destruct (WaitUntilRunning_aborts_on_terminal_phase 1100 st 1 pod "Failed")
    as (fuel & out & _ & Hsame & Hend);
    [ reflexivity | reflexivity | reflexivity | right; reflexivity | ].
  exists out.
  assert (Hout : WaitUntilRunning 2 1100 st = Some out).
  { destruct (WaitUntilRunning 2 1100 st) as [out'|] eqn:E;
      [ | vm_compute in E; discriminate ].
    rewrite (Hsame 2%nat out' E). reflexivity. }
  assert (Hk : polled st (snd out) 1).
  { vm_compute in Hout. injection Hout as <-. vm_compute. lia. }
  split; [ exact Hout | ]. split; [ exact Hk | ].
  exact (Hend Hk).
Defined.

(** C4.  With a deadline that the clock has reached, [WaitUntilRunning] on
    a started runner raises [DeadlineExceeded] and leaves the runner and
    the world as they were: no status query, no event, the pod name and
    the endpoint untouched. *)
Theorem WaitUntilRunning_past_deadline
  (fuel : nat) (deadline : Z) (st : State) :
  Py.truthy_str (_pod_name (fst st)) = true ->
  deadline <= clock (snd st) ->
  WaitUntilRunning (S fuel) deadline st
  = Some (Raise (DeadlineExceeded
                   "Deadline exceeded while waiting for pod to be running."),
          st)
  /\ forall fuel' out,
      WaitUntilRunning fuel' deadline st = Some out ->
      fst out
      = Raise (DeadlineExceeded
                 "Deadline exceeded while waiting for pod to be running.")
      /\ _pod_name (fst (snd out)) = _pod_name (fst st)
      /\ _endpoint (fst (snd out)) = _endpoint (fst st)
      /\ reads (snd (snd out)) = reads (snd st)
      /\ trace (snd (snd out)) = trace (snd st).
Proof.
  intros Hstarted Hpast.
  assert (Hloop : forall n,
             wait_loop (S n) deadline st
             = Some (Raise (DeadlineExceeded
                              "Deadline exceeded while waiting for pod to be running."),
                     st)).
  { intros n. simpl.
    destruct (Z.ltb_spec (clock (snd st)) deadline); [ lia | reflexivity ]. }
  unfold WaitUntilRunning. rewrite Hstarted. split; [ apply Hloop | ].
  intros [|n] out H; [ discriminate | ].
  rewrite Hloop in H. injection H as <-. simpl. auto.
Qed.

Lemma WaitUntilRunning_past_deadline_witness :
  let st := Fixture.started Fixture.flaky_then_running in
  Py.truthy_str (_pod_name (fst st)) = true
  /\ 1000 <= clock (snd st)
  /\ WaitUntilRunning 1 1000 st
     = Some (Raise (DeadlineExceeded
                      "Deadline exceeded while waiting for pod to be running."),
             st).
Proof.
  intros st.
  split; [ reflexivity | ]. split; [ vm_compute; discriminate | ].
  apply (WaitUntilRunning_past_deadline 0 1000 st);
    [ reflexivity | vm_compute; discriminate ].
Defined.

(** ** [Stop] *)

Lemma delete_cases (st : State) : delete_case st (delete_once st).
Proof.
  destruct st as [self w].
  unfold delete_once, bind at 1, get_self. simpl.
  unfold try_except_ApiException, bind at 1, logging. simpl.
  unfold bind at 1, k8s_delete_namespaced_pod. simpl.
  destruct (delete_namespaced_pod (cluster w) (deletes w) (_pod_name self)
              (_namespace self)) as [[]|e] eqn:Hdel.
  - apply (delete_done (self, w)). exact Hdel.
  - destruct e as [m|m|m|m|m|status];
      try (apply (delete_other_error (self, w));
           [ exact Hdel | discriminate ]).
    destruct (Py.int_eq status 404) eqn:H404.
    + apply (delete_not_found (self, w) status); assumption.
    + apply (delete_failed (self, w) status); assumption.
Qed.

Lemma requested_fields (st : State) :
  fst (requested st) = fst st
  /\ cluster (snd (requested st)) = cluster (snd st)
  /\ reads (snd (requested st)) = reads (snd st)
  /\ deletes (snd (requested st)) = S (deletes (snd st))
  /\ trace (snd (requested st))
     = (trace (snd st)
          ++ [EvLog INFO "Deleting Pod (name=%s)";
              EvDelete (_pod_name (fst st)) (_namespace (fst st))])%list.
Proof.
  destruct st as [self w]. unfold requested, bind, logging. simpl.
  repeat split. rewrite <- app_assoc. reflexivity.
Qed.

Lemma logged_fields (level : log_level) (msg : string) (st : State) :
  fst (logged level msg st) = fst st
  /\ cluster (snd (logged level msg st)) = cluster (snd st)
  /\ reads (snd (logged level msg st)) = reads (snd st)
  /\ deletes (snd (logged level msg st)) = deletes (snd st)
  /\ trace (snd (logged level msg st))
     = (trace (snd st) ++ [EvLog level msg])%list.
Proof. destruct st as [self w]. repeat split. Qed.

(** A turn of the loop of [Stop] leaves the runner and the cluster alone,
    makes exactly one deletion request, and adds events. *)
Lemma delete_once_frame (st : State) (r : result flow) (st' : State) :
  delete_once st = (r, st') ->
  fst st' = fst st
  /\ cluster (snd st') = cluster (snd st)
  /\ deletes (snd st') = S (deletes (snd st))
  /\ exists more, trace (snd st') = (trace (snd st) ++ more)%list.
Proof.
  intros Hdel. pose proof (delete_cases st) as Hcase. rewrite Hdel in Hcase.
  destruct (requested_fields st) as (Hr1 & Hr2 & _ & Hr4 & Hr5).
  inversion Hcase; subst; clear Hcase;
    repeat match goal with
           | |- context [logged ?l ?msg ?s] =>
             destruct (logged_fields l msg s) as (-> & -> & _ & -> & ->)
           end;
    rewrite ?Hr1, ?Hr2, ?Hr4, ?Hr5;
    repeat (split; [ reflexivity | ]);
    rewrite <- ?app_assoc; eexists; reflexivity.
Qed.

Lemma deletion_frame (st st' : State) :
  fst st' = fst st ->
  cluster (snd st') = cluster (snd st) ->
  forall k, deletion st' k = deletion st k.
Proof. intros H1 H2 k. unfold deletion. rewrite H1, H2. reflexivity. Qed.

Lemma generator_sleep_frame (t : time_utils.turn) (st : State)
  (r : result unit) (st' : State) :
  generator_sleep t st = (r, st') ->
  fst st' = fst st
  /\ cluster (snd st') = cluster (snd st)
  /\ deletes (snd st') = deletes (snd st)
  /\ exists more, trace (snd st') = (trace (snd st) ++ more)%list.
Proof.
  destruct st as [self w]. unfold generator_sleep, time_sleep, ret.
  destruct (time_utils.sleep_before t) as [seconds|]; simpl.
  - destruct (seconds <? 0); intros H; injection H as <- <-; simpl;
      repeat (split; [ reflexivity | ]).
    + exists []. rewrite app_nil_r. reflexivity.
    + eexists. reflexivity.
  - intros H; injection H as <- <-; simpl.
    repeat (split; [ reflexivity | ]).
    exists []. rewrite app_nil_r. reflexivity.
Qed.

Lemma for_each_turn_cons (t : time_utils.turn) (rest : list time_utils.turn)
  (body : M flow) (st : State) :
  for_each_turn (t :: rest) body st
  = match generator_sleep t st with
    | (Raise e, st1) => (Raise e, st1)
    | (Return _, st1) =>
      match body st1 with
      | (Return Returned, st2) => (Return Returned, st2)
      | (Return NextTurn, st2) => for_each_turn rest body st2
      | (Raise e, st2) => (Raise e, st2)
      end
    end.
Proof.
  simpl. unfold bind at 1.
  destruct (generator_sleep t st) as [[u|e] st1]; [ | reflexivity ].
  unfold bind at 1.
  destruct (body st1) as [[[|]|e] st2]; reflexivity.
Qed.

Lemma for_each_turn_frame (turns : list time_utils.turn) :
  forall st r st',
    for_each_turn turns delete_once st = (r, st') ->
    fst st' = fst st
    /\ cluster (snd st') = cluster (snd st)
    /\ (deletes (snd st) <= deletes (snd st'))%nat
    /\ trace (snd st') = (trace (snd st) ++ events_since st st')%list.
Proof.
  assert (Hsince : forall (a b : State) more,
             trace (snd b) = (trace (snd a) ++ more)%list ->
             trace (snd b) = (trace (snd a) ++ events_since a b)%list).
  { intros a b more H. rewrite (events_since_app a b more H). exact H. }
  induction turns as [|t rest IH]; intros st r st' H.
  - injection H as <- <-. repeat (split; [ reflexivity || lia | ]).
    apply (Hsince st st []). rewrite app_nil_r. reflexivity.
  - rewrite for_each_turn_cons in H.
    destruct (generator_sleep t st) as [[u|e] st1] eqn:Hsleep.
    + destruct (generator_sleep_frame _ _ _ _ Hsleep)
        as (S1 & S2 & S3 & m1 & S4).
      destruct (delete_once st1) as [[[|]|e] st2] eqn:Hdel;
        destruct (delete_once_frame _ _ _ Hdel) as (D1 & D2 & D3 & m2 & D4).
      * destruct (IH _ _ _ H) as (I1 & I2 & I3 & I4).
        rewrite I1, I2, D1, D2, S1, S2.
        repeat (split; [ reflexivity || lia | ]).
        eapply Hsince. rewrite I4, D4, S4, <- !app_assoc. reflexivity.
      * injection H as <- <-. rewrite D1, D2, D3, S1, S2, S3.
        repeat (split; [ reflexivity || lia | ]).
        eapply Hsince. rewrite D4, S4, <- !app_assoc. reflexivity.
      * injection H as <- <-. rewrite D1, D2, D3, S1, S2, S3.
        repeat (split; [ reflexivity || lia | ]).
        eapply Hsince. rewrite D4, S4, <- !app_assoc. reflexivity.
    + injection H as <- <-.
      destruct (generator_sleep_frame _ _ _ _ Hsleep)
        as (S1 & S2 & S3 & m1 & S4).
      rewrite S1, S2, S3. repeat (split; [ reflexivity || lia | ]).
      eapply Hsince. exact S4.
Qed.

(** A turn whose deletion request is answered with 404 ends the loop. *)
Lemma delete_once_on_not_found (st : State) :
  deletion st (deletes (snd st)) = Raise (ApiException (Some 404)) ->
  delete_once st
  = (Return Returned,
     logged INFO "Pod (name=%s) does not exist." (requested st)).
Proof.
  intros Hdel.
  destruct (delete_cases st) as [H|s H H404|s H H404|e H Hne];
    try congruence.
  rewrite Hdel in H. injection H as <-. discriminate.
Qed.


Lemma for_each_turn_not_found (turns : list time_utils.turn) :
  forall st r st' k,
    for_each_turn turns delete_once st = (r, st') ->
    deletion st k = Raise (ApiException (Some 404)) ->
    attempted st st' k ->
    r = Return Returned
    /\ deletes (snd st') = S k
    /\ exists before,
        events_since st st'
        = (before
             ++ [EvDelete (_pod_name (fst st)) (_namespace (fst st));
                 EvLog INFO "Pod (name=%s) does not exist."])%list.
Proof.
  unfold attempted.
  induction turns as [|t rest IH]; intros st r st' k H H404 Hk.
  - injection H as <- <-. lia.
  - rewrite for_each_turn_cons in H.
    destruct (generator_sleep t st) as [[u|e] st1] eqn:Hsleep.
    + destruct (generator_sleep_frame _ _ _ _ Hsleep)
        as (S1 & S2 & S3 & m1 & S4).
      pose proof (deletion_frame st st1 S1 S2) as Hsame1.
      destruct (Nat.eq_dec k (deletes (snd st))) as [->|Hne].
      * rewrite <- S3, <- Hsame1 in H404.
        rewrite (delete_once_on_not_found _ H404) in H.
        injection H as <- <-.
        destruct (logged_fields INFO "Pod (name=%s) does not exist."
                    (requested st1)) as (L1 & L2 & _ & L4 & L5).
        destruct (requested_fields st1) as (R1 & R2 & _ & R4 & R5).
        rewrite L4, R4, S3. repeat (split; [ reflexivity | ]).
        exists (m1 ++ [EvLog INFO "Deleting Pod (name=%s)"])%list.
        apply events_since_app.
        rewrite L5, R5, S4, S1, <- !app_assoc. reflexivity.
      * destruct (delete_once st1) as [[[|]|e] st2] eqn:Hdel;
          destruct (delete_once_frame _ _ _ Hdel) as (D1 & D2 & D3 & m2 & D4);
          try (injection H as <- <-; lia).
        destruct (for_each_turn_frame _ _ _ _ H) as (F1 & F2 & F3 & F4).
        pose proof (deletion_frame st1 st2 D1 D2) as Hsame2.
        destruct (IH st2 r st' k H) as (I1 & I2 & before & I3);
          [ rewrite Hsame2, Hsame1; exact H404 | lia | ].
        repeat (split; [ assumption | ]).
        exists (m1 ++ m2 ++ before)%list.
        apply events_since_app.
        rewrite F4, I3, D4, S4, D1, S1, <- !app_assoc. reflexivity.
    + injection H as <- <-.
      destruct (generator_sleep_frame _ _ _ _ Hsleep) as (_ & _ & S3 & _).
      lia.
Qed.

(** C8.  If a deletion request that [Stop] made was answered with 404,
    [Stop] returned normally right after it: that request is the last one,
    and only the log line that the pod does not exist follows it. *)
Theorem Stop_returns_on_not_found
  (d : time_utils.defaults) (st : State) (k : nat) :
  deletion st k = Raise (ApiException (Some 404)) ->
  attempted st (snd (Stop d st)) k ->
  fst (Stop d st) = Return tt
  /\ deletes (snd (snd (Stop d st))) = S k
  /\ exists before,
      events_since st (snd (Stop d st))
      = (before
           ++ [EvDelete (_pod_name (fst st)) (_namespace (fst st));
               EvLog INFO "Pod (name=%s) does not exist."])%list.
Proof.
  intros H404. unfold Stop, bind.
  destruct (for_each_turn (time_utils.exponential_backoff d 5) delete_once st)
    as [[fl|e] st'] eqn:Hloop; cbv zeta.
  - destruct fl.
    + intros Hk. exfalso.
      destruct (for_each_turn_not_found _ _ _ _ k Hloop H404) as (Hr & _).
      * unfold attempted, logging in *. simpl in Hk. exact Hk.
      * discriminate.
    + simpl. intros Hk.
      destruct (for_each_turn_not_found _ _ _ _ k Hloop H404 Hk)
        as (_ & H2 & H3).
      auto.
  - simpl. intros Hk.
    destruct (for_each_turn_not_found _ _ _ _ k Hloop H404 Hk) as (Hr & _).
    discriminate.
Qed.

Lemma Stop_returns_on_not_found_witness :
  let st := Fixture.started Fixture.failing in
  deletion st 0 = Raise (ApiException (Some 404))
  /\ attempted st (snd (Stop Fixture.backoff st)) 0
  /\ fst (Stop Fixture.backoff st) = Return tt
  /\ deletes (snd (snd (Stop Fixture.backoff st))) = 1%nat
  /\ exists before,
      events_since st (snd (Stop Fixture.backoff st))
      = (before
           ++ [EvDelete (_pod_name (fst st)) (_namespace (fst st));
               EvLog INFO "Pod (name=%s) does not exist."])%list.
Proof.
  intros st.
  split; [ reflexivity | ]. split; [ vm_compute; lia | ].
  apply (Stop_returns_on_not_found Fixture.backoff st 0);
    [ reflexivity | vm_compute; lia ].
Defined.






(** ** Status queries that fail *)






(** * More of the runner's behaviour *)

(** ** Manifest construction *)

(** X1.  [_BuildPodManifest] returns a manifest only when the serving
    binary is a [TensorFlowServing] and the configured deadline, if any,
    is not negative; it then leaves the state as it was, and the manifest
    carries the configured deadline, or 86400 seconds for a deadline that
    is unset or 0. *)
Theorem _BuildPodManifest_succeeds_only_if
  (st : State) (body : V1Pod.t) (st1 : State) :
  _BuildPodManifest st = (Return body, st1) ->
  serving_bins.class_of (_serving_binary (fst st))
  = serving_bins.TensorFlowServing
  /\ (forall n,
         KubernetesConfig.active_deadline_seconds (_config (fst st)) = Some n ->
         0 <= n)
  /\ st1 = st
  /\ V1PodSpec.active_deadline_seconds (V1Pod.spec body)
     = match KubernetesConfig.active_deadline_seconds (_config (fst st)) with
       | Some n => if n =? 0 then Some 86400 else Some n
       | None => Some 86400
       end.
Proof.
  intros Hbuild.
  pose proof (_BuildPodManifest_pure st) as Hpure.
  rewrite Hbuild in Hpure. simpl in Hpure.
  pose proof (_BuildPodManifest_deadline _ _ _ Hbuild) as Hdeadline.
  split; [ | split; [ | split; [ exact Hpure | ] ] ].
  - destruct st as [self w]. revert Hbuild. run_monad.
    destruct (serving_bins.class_of (_serving_binary self));
      [ reflexivity | discriminate ].
  - intros n Hn.
    destruct (Z_lt_le_dec n 0) as [Hneg|Hok]; [ exfalso | exact Hok ].
    destruct st as [self w]. revert Hbuild. run_monad.
    destruct (serving_bins.class_of (_serving_binary self)); simpl;
      [ | discriminate ].
    simpl in Hn. rewrite Hn. unfold Py.int_or.
    replace (n =? 0) with false by (symmetry; apply Z.eqb_neq; lia).
    replace (n <? 0) with true by (symmetry; apply Z.ltb_lt; lia).
    discriminate.
  - rewrite Hdeadline. unfold Py.int_or.
    destruct (KubernetesConfig.active_deadline_seconds (_config (fst st)))
      as [n|]; [ | reflexivity ].
    destruct (n =? 0); reflexivity.
Qed.

Lemma _BuildPodManifest_succeeds_only_if_witness :
  let st := (Fixture.runner (Some 300), Fixture.world Fixture.failing) in
  exists body,
    _BuildPodManifest st = (Return body, st)
    /\ V1PodSpec.active_deadline_seconds (V1Pod.spec body) = Some 300.
Proof.
  intros st. eexists. split; [ reflexivity | ].
  destruct (_BuildPodManifest_succeeds_only_if st _ st eq_refl)
    as (_ & _ & _ & H).
  exact H.
Defined.

(** The manifest, spelled out. *)
Lemma _BuildPodManifest_body (st : State) (body : V1Pod.t) (st1 : State) :
  _BuildPodManifest st = (Return body, st1) ->
  V1Pod.metadata body
  = {| V1ObjectMeta.name := None;
       V1ObjectMeta.generate_name := Some _MODEL_SERVER_POD_NAME_PREFIX;
       V1ObjectMeta.uid := None;
       V1ObjectMeta.labels := _label_dict (fst st);
       V1ObjectMeta.owner_references :=
         [owner_reference_of (_executor_pod (fst st))] |}
  /\ V1PodSpec.containers (V1Pod.spec body)
     = [ {| V1Container.name := _MODEL_SERVER_CONTAINER_NAME;
            V1Container.image := serving_bins.image (_serving_binary (fst st));
            V1Container.env :=
              map (fun kv => {| V1EnvVar.name := fst kv;
                                V1EnvVar.value := snd kv |})
                  (serving_bins.MakeEnvVars (_serving_binary (fst st))
                     (_model_path (fst st))) |} ]
  /\ V1PodSpec.restart_policy (V1Pod.spec body)
     = Some _POD_CONTAINER_RESTART_POLICY_NEVER
  /\ V1PodSpec.service_account_name (V1Pod.spec body)
     = Py.or_ Py.truthy_str
         (KubernetesConfig.service_account_name (_config (fst st)))
         (V1PodSpec.service_account_name
            (V1Pod.spec (_executor_pod (fst st)))).
Proof.
  destruct st as [self w]. run_monad.
  destruct (serving_bins.class_of (_serving_binary self)); simpl;
    [ | discriminate ].
  destruct (Py.int_or _ _ <? 0); [ discriminate | ].
  intros H. injection H as <- _. simpl. repeat split.
Qed.

(** The events of a call of [Start]. *)
Lemma Start_events (st : State) :
  events_since st (snd (Start st)) = []
  \/ exists body st1,
      _BuildPodManifest st = (Return body, st1)
      /\ Py.truthy_str (_pod_name (fst st)) = false
      /\ ((exists e,
              create_namespaced_pod (cluster (snd st)) (_namespace (fst st)) body
              = Raise e
              /\ Start st
                 = (Raise e,
                    (fst st,
                     emit (EvCreate (_namespace (fst st)) body) (snd st)))
              /\ events_since st (snd (Start st))
                 = [EvCreate (_namespace (fst st)) body])
          \/ (exists pod,
                 create_namespaced_pod (cluster (snd st)) (_namespace (fst st))
                   body
                 = Return pod
                 /\ Start st
                    = (Return tt,
                       (set_pod_name (fst st)
                          (V1ObjectMeta.name (V1Pod.metadata pod)),
                        emit (EvLog INFO "Created Pod:\n%s")
                             (emit (EvCreate (_namespace (fst st)) body)
                                   (snd st))))
                 /\ events_since st (snd (Start st))
                    = [EvCreate (_namespace (fst st)) body;
                       EvLog INFO "Created Pod:\n%s"])).
Proof.
  pose proof (_BuildPodManifest_pure st) as Hpure.
  rewrite Start_unfold.
  destruct (Py.truthy_str (_pod_name (fst st))) eqn:Hfresh.
  { left. apply (events_since_app st st []). rewrite app_nil_r. reflexivity. }
  destruct (_BuildPodManifest st) as [[body|e] st1] eqn:Hbuild;
    simpl in Hpure; subst st1; simpl.
  - right. exists body, st. split; [ reflexivity | ].
    split; [ reflexivity | ].
    destruct (create_namespaced_pod (cluster (snd st)) (_namespace (fst st))
                body) as [pod|e] eqn:Hcreate.
    + right. exists pod. split; [ reflexivity | ].
      split; [ reflexivity | ].
      apply events_since_app. simpl. rewrite <- app_assoc. reflexivity.
    + left. exists e. split; [ reflexivity | ]. split; [ reflexivity | ].
      apply events_since_app. reflexivity.
  - left. apply (events_since_app st st []). rewrite app_nil_r. reflexivity.
Qed.

Lemma __init___fields env model_path serving_binary serving_spec self :
  __init__ env model_path serving_binary serving_spec = Return self ->
  self
  = {| _config := ServingSpec.kubernetes serving_spec;
       _model_path := model_path;
       _serving_binary := serving_binary;
       _executor_pod := kube_utils.get_current_kfp_pod env;
       _namespace := kube_utils.get_kfp_namespace env;
       _label_dict := [(_APP_KEY, _MODEL_SERVER_APP_LABEL)];
       _pod_name := None;
       _endpoint := None |}
  /\ ServingSpec.serving_platform serving_spec = Some "kubernetes"
  /\ kube_utils.is_inside_kfp env = true.
Proof.
  unfold __init__. intros H.
  destruct (ServingSpec.serving_platform serving_spec) as [platform|];
    [ | discriminate ].
  destruct (String.eqb_spec platform "kubernetes") as [->|Hne].
  - destruct (kube_utils.is_inside_kfp env); [ | discriminate ].
    injection H as <-. auto.
  - exfalso.
    repeat match type of H with
           | match ?x with _ => _ end = _ => destruct x; try discriminate
           | (if ?x then _ else _) = _ => destruct x; try discriminate
           end.
    apply Hne. reflexivity.
Qed.

(** X2.  Every creation request that [Start] sends for a runner built by
    [__init__] goes to the namespace of the pod the runner lives in, and
    asks for a pod that is never restarted, is owned by that pod alone,
    is labelled app=tfx-infraval-modelserver, gets its name from the
    orchestrator under the prefix tfx-infraval-modelserver-, and runs one
    container, "model-server", with the image of the serving binary and
    the environment [MakeEnvVars] gives for the model path, in its
    order. *)
Theorem Start_submits_owned_pod
  env model_path serving_binary serving_spec (self : KubernetesRunner)
  (w : World) (namespace : string) (body : V1Pod.t) :
  __init__ env model_path serving_binary serving_spec = Return self ->
  In (EvCreate namespace body) (events_since (self, w) (snd (Start (self, w)))) ->
  namespace = kube_utils.get_kfp_namespace env
  /\ V1PodSpec.restart_policy (V1Pod.spec body) = Some "Never"
  /\ V1ObjectMeta.owner_references (V1Pod.metadata body)
     = [owner_reference_of (kube_utils.get_current_kfp_pod env)]
  /\ V1ObjectMeta.labels (V1Pod.metadata body)
     = [("app", "tfx-infraval-modelserver")]
  /\ V1ObjectMeta.name (V1Pod.metadata body) = None
  /\ V1ObjectMeta.generate_name (V1Pod.metadata body)
     = Some "tfx-infraval-modelserver-"
  /\ V1PodSpec.containers (V1Pod.spec body)
     = [ {| V1Container.name := "model-server";
            V1Container.image := serving_bins.image serving_binary;
            V1Container.env :=
              map (fun kv => {| V1EnvVar.name := fst kv;
                                V1EnvVar.value := snd kv |})
                  (serving_bins.MakeEnvVars serving_binary model_path) |} ].
Proof.
  intros Hinit Hin.
  destruct (__init___fields _ _ _ _ _ Hinit) as (Hself & _ & _).
  assert (Hsent : exists st1,
             _BuildPodManifest (self, w) = (Return body, st1)
             /\ namespace = _namespace self).
  { destruct (Start_events (self, w))
      as [Hnone|(body' & st1 & Hbuild & _ & Hsome)].
    - rewrite Hnone in Hin. destruct Hin.
    - exists st1.
      destruct Hsome as [(e & _ & _ & Hev)|(pod & _ & _ & Hev)];
        rewrite Hev in Hin; simpl in Hin;
        repeat match type of Hin with
               | _ \/ _ => destruct Hin as [Hin|Hin]
               | False => destruct Hin
               | EvCreate _ _ = EvCreate _ _ => injection Hin as <- <-
               | _ = _ => discriminate Hin
               end;
        auto. }
  destruct Hsent as (st1 & Hbuild & ->).
  destruct (_BuildPodManifest_body _ _ _ Hbuild) as (Hmeta & Hcont & Hpol & _).
  rewrite Hmeta, Hcont, Hpol. simpl. rewrite Hself. simpl.
  repeat split.
Qed.

Lemma Start_submits_owned_pod_witness :
  let self := Fixture.runner None in
  let w := Fixture.world Fixture.failing in
  exists body,
    __init__ Fixture.kfp "/model" Fixture.tensorflow_serving
             (Fixture.serving_spec None) = Return self
    /\ In (EvCreate "kubeflow" body)
          (events_since (self, w) (snd (Start (self, w))))
    /\ V1PodSpec.restart_policy (V1Pod.spec body) = Some "Never"
    /\ V1ObjectMeta.owner_references (V1Pod.metadata body)
       = [ {| V1OwnerReference.api_version := Some "v1";
              V1OwnerReference.kind := Some "Pod";
              V1OwnerReference.name := Some "executor";
              V1OwnerReference.uid := Some "uid-1" |} ].
Proof.
  intros self w. eexists.
  split; [ reflexivity | ].
  assert (Hin : In (EvCreate "kubeflow"
                      (match fst (_BuildPodManifest (self, w)) with
                       | Return body => body
                       | Raise _ => Fixture.a_pod "" None None
                       end))
                   (events_since (self, w) (snd (Start (self, w))))).
  { vm_compute. left. reflexivity. }
  split; [ exact Hin | ].
  destruct (Start_submits_owned_pod Fixture.kfp "/model"
              Fixture.tensorflow_serving (Fixture.serving_spec None)
              self w "kubeflow" _ eq_refl Hin)
    as (_ & Hpol & Hown & _).
  split; [ exact Hpol | exact Hown ].
Defined.

(** X3.  The pod runs under the service account of the config when that
    is a non-empty string, and under the service account of the pod the
    runner lives in when the config has none or an empty one. *)
Theorem manifest_service_account
  (st : State) (body : V1Pod.t) (st1 : State) :
  _BuildPodManifest st = (Return body, st1) ->
  let configured := KubernetesConfig.service_account_name (_config (fst st)) in
  let inherited :=
    V1PodSpec.service_account_name (V1Pod.spec (_executor_pod (fst st))) in
  (forall name,
      configured = Some name -> name <> "" ->
      V1PodSpec.service_account_name (V1Pod.spec body) = Some name)
  /\ (configured = None \/ configured = Some "" ->
      V1PodSpec.service_account_name (V1Pod.spec body) = inherited).
Proof.
  intros Hbuild configured inherited.
  destruct (_BuildPodManifest_body _ _ _ Hbuild) as (_ & _ & _ & Hsa).
  fold configured inherited in Hsa. rewrite Hsa. unfold Py.or_. split.
  - intros name -> Hne. simpl.
    destruct (String.eqb_spec name ""); [ contradiction | reflexivity ].
  - intros [-> | ->]; reflexivity.
Qed.

Lemma manifest_service_account_witness :
  let st := (Fixture.runner None, Fixture.world Fixture.failing) in
  exists body,
    _BuildPodManifest st = (Return body, st)
    /\ V1PodSpec.service_account_name (V1Pod.spec body)
       = Some "pipeline-runner".
Proof.
  intros st. eexists. split; [ reflexivity | ].
  destruct (manifest_service_account st _ st eq_refl) as [_ H].
  apply H. left. reflexivity.
Defined.

(** ** [Start] *)

(** X4.  For a serving binary that is not a [TensorFlowServing], [Start]
    on a runner that has not been started raises [NotImplementedError]
    with the name of the binary's type and leaves the runner and the
    world as they were, whatever the config says. *)
Theorem Start_unsupported_serving_binary (st : State) (type_name : string) :
  serving_bins.class_of (_serving_binary (fst st))
  = serving_bins.OtherServingBinary type_name ->
  Py.truthy_str (_pod_name (fst st)) = false ->
  Start st
  = (Raise (NotImplementedError ("Unsupported serving binary " ++ type_name)),
     st).
Proof.
  intros Hclass Hfresh. rewrite Start_unfold, Hfresh.
  destruct st as [self w]. simpl in *. run_monad. rewrite Hclass. reflexivity.
Qed.

Lemma Start_unsupported_serving_binary_witness :
  let custom :=
    {| serving_bins.class_of := serving_bins.OtherServingBinary "TorchServe";
       serving_bins.image := "pytorch/torchserve";
       serving_bins.container_port := 8080;
       serving_bins.MakeEnvVars := fun _ => [] |} in
  let self :=
    {| _config := ServingSpec.kubernetes (Fixture.serving_spec (Some (-1)));
       _model_path := "/model";
       _serving_binary := custom;
       _executor_pod := kube_utils.get_current_kfp_pod Fixture.kfp;
       _namespace := "kubeflow";
       _label_dict := [(_APP_KEY, _MODEL_SERVER_APP_LABEL)];
       _pod_name := None;
       _endpoint := None |} in
  let st := (self, Fixture.world Fixture.failing) in
  Start st
  = (Raise (NotImplementedError "Unsupported serving binary TorchServe"), st).
Proof.
  intros custom self st.
  apply (Start_unsupported_serving_binary st "TorchServe"); reflexivity.
Defined.

(** A [Start] whose creation request is granted. *)
Lemma Start_created
  (st : State) (body : V1Pod.t) (st1 : State) (pod : V1Pod.t) :
  Py.truthy_str (_pod_name (fst st)) = false ->
  _BuildPodManifest st = (Return body, st1) ->
  create_namespaced_pod (cluster (snd st)) (_namespace (fst st)) body
  = Return pod ->
  fst (Start st) = Return tt
  /\ fst (snd (Start st))
     = set_pod_name (fst st) (V1ObjectMeta.name (V1Pod.metadata pod))
  /\ events_since st (snd (Start st))
     = [EvCreate (_namespace (fst st)) body; EvLog INFO "Created Pod:\n%s"].
Proof.
  intros Hfresh Hbuild Hcreate.
  destruct (Start_events st) as [Hnone|(body' & st1' & Hbuild' & _ & Hsome)].
  - exfalso. destruct (Start_submits _ _ _ Hfresh Hbuild) as [rest Hrest].
    apply events_since_app in Hrest. rewrite Hrest in Hnone. discriminate.
  - rewrite Hbuild in Hbuild'. injection Hbuild' as <- <-.
    destruct Hsome as [(e & He & _)|(pod' & Hpod & Hstart & Hev)];
      [ congruence | ].
    rewrite Hcreate in Hpod. injection Hpod as <-.
    rewrite Hev, Hstart. simpl. auto.
Qed.

(** X5.  When the manifest can be built and the orchestrator creates the
    pod, [Start] on a runner that has not been started returns normally
    after exactly one creation request, with the name the orchestrator
    gave the pod as the pod name of the runner; nothing else of the
    runner changes. *)
Theorem Start_records_pod_name
  (st : State) (body : V1Pod.t) (st1 : State) (pod : V1Pod.t) :
  Py.truthy_str (_pod_name (fst st)) = false ->
  _BuildPodManifest st = (Return body, st1) ->
  create_namespaced_pod (cluster (snd st)) (_namespace (fst st)) body
  = Return pod ->
  fst (Start st) = Return tt
  /\ fst (snd (Start st))
     = set_pod_name (fst st) (V1ObjectMeta.name (V1Pod.metadata pod))
  /\ events_since st (snd (Start st))
     = [EvCreate (_namespace (fst st)) body; EvLog INFO "Created Pod:\n%s"].
Proof. exact (Start_created st body st1 pod). Qed.

Lemma Start_records_pod_name_witness :
  let st := (Fixture.runner None, Fixture.world Fixture.failing) in
  exists body,
    _BuildPodManifest st = (Return body, st)
    /\ fst (Start st) = Return tt
    /\ _pod_name (fst (snd (Start st))) = Some Fixture.server
    /\ events_since st (snd (Start st))
       = [EvCreate "kubeflow" body; EvLog INFO "Created Pod:\n%s"].
Proof.
  intros st. eexists. split; [ reflexivity | ].
  destruct (Start_records_pod_name st _ st
              (Fixture.a_pod Fixture.server (Some "Pending") None)
              eq_refl eq_refl eq_refl) as (H1 & H2 & H3).
  split; [ exact H1 | ]. split; [ rewrite H2; reflexivity | exact H3 ].
Defined.

(** X6.  When the orchestrator refuses the creation request, [Start]
    raises what the client raised after that one request: it does not
    retry, and the runner is as before, still without a pod name. *)
Theorem Start_propagates_creation_failure
  (st : State) (body : V1Pod.t) (st1 : State) (e : exn) :
  Py.truthy_str (_pod_name (fst st)) = false ->
  _BuildPodManifest st = (Return body, st1) ->
  create_namespaced_pod (cluster (snd st)) (_namespace (fst st)) body
  = Raise e ->
  fst (Start st) = Raise e
  /\ fst (snd (Start st)) = fst st
  /\ events_since st (snd (Start st)) = [EvCreate (_namespace (fst st)) body].
Proof.
  intros Hfresh Hbuild Hcreate.
  destruct (Start_events st) as [Hnone|(body' & st1' & Hbuild' & _ & Hsome)].
  - exfalso. destruct (Start_submits _ _ _ Hfresh Hbuild) as [rest Hrest].
    apply events_since_app in Hrest. rewrite Hrest in Hnone. discriminate.
  - rewrite Hbuild in Hbuild'. injection Hbuild' as <- <-.
    destruct Hsome as [(e' & He & Hstart & Hev)|(pod' & Hpod & _)];
      [ | congruence ].
    rewrite Hcreate in He. injection He as <-.
    rewrite Hev, Hstart. simpl. auto.
Qed.

Lemma Start_propagates_creation_failure_witness :
  let quota :=
    {| create_namespaced_pod := fun _ _ => Raise (ApiException (Some 403));
       read_namespaced_pod := read_namespaced_pod Fixture.failing;
       delete_namespaced_pod := delete_namespaced_pod Fixture.failing;
       read_latency := read_latency Fixture.failing |} in
  let st := (Fixture.runner None, Fixture.world quota) in
  exists body,
    _BuildPodManifest st = (Return body, st)
    /\ fst (Start st) = Raise (ApiException (Some 403))
    /\ fst (snd (Start st)) = fst st
    /\ events_since st (snd (Start st)) = [EvCreate "kubeflow" body].
Proof.
  intros quota st. eexists. split; [ reflexivity | ].
  apply (Start_propagates_creation_failure st _ st (ApiException (Some 403)));
    reflexivity.
Defined.

(** [_BuildPodManifest] does not look at the pod name, the endpoint or
    the world. *)
Lemma _BuildPodManifest_ignores_pod_name
  (self : KubernetesRunner) (name : option string) (w w' : World) :
  fst (_BuildPodManifest (set_pod_name self name, w'))
  = fst (_BuildPodManifest (self, w)).
Proof.
  run_monad.
  destruct (serving_bins.class_of (_serving_binary self)); simpl;
    [ | reflexivity ].
  destruct (Py.int_or _ _ <? 0); reflexivity.
Qed.

(** X7.  Once the orchestrator has created the pod under a name that is
    not empty, another [Start] raises the assertion error and sends
    nothing to the orchestrator. *)
Theorem Start_twice_is_refused
  (st : State) (body : V1Pod.t) (st1 : State) (pod : V1Pod.t)
  (name : string) :
  Py.truthy_str (_pod_name (fst st)) = false ->
  _BuildPodManifest st = (Return body, st1) ->
  create_namespaced_pod (cluster (snd st)) (_namespace (fst st)) body
  = Return pod ->
  V1ObjectMeta.name (V1Pod.metadata pod) = Some name ->
  name <> "" ->
  fst (Start st) = Return tt
  /\ Start (snd (Start st))
     = (Raise (AssertionError "You cannot start model server multiple times."),
        snd (Start st)).
Proof.
  intros Hfresh Hbuild Hcreate Hname Hne.
  destruct (Start_created _ _ _ _ Hfresh Hbuild Hcreate)
    as (H1 & H2 & _).
  split; [ exact H1 | ].
  rewrite (Start_unfold (snd (Start st))), H2. simpl. rewrite Hname. simpl.
  destruct (String.eqb_spec name ""); [ contradiction | reflexivity ].
Qed.

Lemma Start_twice_is_refused_witness :
  let st := (Fixture.runner None, Fixture.world Fixture.failing) in
  fst (Start st) = Return tt
  /\ Start (snd (Start st))
     = (Raise (AssertionError "You cannot start model server multiple times."),
        snd (Start st)).
Proof.
  intros st.
  apply (Start_twice_is_refused st
           (match fst (_BuildPodManifest st) with
            | Return body => body
            | Raise _ => Fixture.a_pod "" None None
            end)
           st (Fixture.a_pod Fixture.server (Some "Pending") None)
           Fixture.server);
    [ reflexivity | reflexivity | reflexivity | reflexivity | discriminate ].
Defined.

(** X8.  When the orchestrator answers the creation request with a pod
    that has no name, or an empty one, [Start] returns normally but the
    runner counts as not started: [WaitUntilRunning] raises its assertion
    error without a query, and another [Start] is not refused but sends a
    second creation request for the same manifest. *)
Theorem Start_with_nameless_pod
  (st : State) (body : V1Pod.t) (st1 : State) (pod : V1Pod.t)
  (fuel : nat) (deadline : Z) :
  Py.truthy_str (_pod_name (fst st)) = false ->
  _BuildPodManifest st = (Return body, st1) ->
  create_namespaced_pod (cluster (snd st)) (_namespace (fst st)) body
  = Return pod ->
  Py.truthy_str (V1ObjectMeta.name (V1Pod.metadata pod)) = false ->
  let st' := snd (Start st) in
  fst (Start st) = Return tt
  /\ WaitUntilRunning fuel deadline st'
     = Some (Raise (AssertionError
                      "Pod has not been created yet. You should call Start() first."),
             st')
  /\ exists rest,
      events_since st' (snd (Start st'))
      = EvCreate (_namespace (fst st)) body :: rest.
Proof.
  intros Hfresh Hbuild Hcreate Hname st'.
  destruct (Start_created _ _ _ _ Hfresh Hbuild Hcreate)
    as (H1 & H2 & _).
  fold st' in H2.
  assert (Hfresh' : Py.truthy_str (_pod_name (fst st')) = false).
  { rewrite H2. exact Hname. }
  split; [ exact H1 | ]. split.
  - unfold WaitUntilRunning. rewrite Hfresh'. reflexivity.
  - assert (Hbuild' : fst (_BuildPodManifest st') = Return body).
    { destruct st' as [self' w'] eqn:Est'. simpl in H2. subst self'.
      destruct st as [self w].
      rewrite (_BuildPodManifest_ignores_pod_name self _ w w').
      rewrite Hbuild. reflexivity. }
    pose proof (_BuildPodManifest_pure st') as Hpure.
    destruct (_BuildPodManifest st') as [r s'] eqn:Hb.
    simpl in Hbuild', Hpure. subst r s'.
    destruct (Start_submits _ _ _ Hfresh' Hb) as [rest Hrest].
    exists rest. apply events_since_app in Hrest.
    rewrite Hrest, H2. reflexivity.
Qed.

Lemma Start_with_nameless_pod_witness :
  let anonymous :=
    {| create_namespaced_pod :=
         fun _ _ => Return (Fixture.a_pod "" (Some "Pending") None);
       read_namespaced_pod := read_namespaced_pod Fixture.failing;
       delete_namespaced_pod := delete_namespaced_pod Fixture.failing;
       read_latency := read_latency Fixture.failing |} in
  let st := (Fixture.runner None, Fixture.world anonymous) in
  let st' := snd (Start st) in
  fst (Start st) = Return tt
  /\ WaitUntilRunning 3 1100 st'
     = Some (Raise (AssertionError
                      "Pod has not been created yet. You should call Start() first."),
             st')
  /\ exists rest,
      events_since st' (snd (Start st'))
      = EvCreate "kubeflow"
          (match fst (_BuildPodManifest st) with
           | Return body => body
           | Raise _ => Fixture.a_pod "" None None
           end) :: rest.
Proof.
  intros anonymous st st'.
  apply (Start_with_nameless_pod st _ st
           (Fixture.a_pod "" (Some "Pending") None) 3 1100);
    reflexivity.
Defined.

(** ** [WaitUntilRunning], further *)

(** On a started runner the method returns, and what it returns is a run
    of its loop. *)
Lemma WaitUntilRunning_returns_Run (deadline : Z) (st : State) :
  Py.truthy_str (_pod_name (fst st)) = true ->
  exists out, WaitUntilRunning_returns deadline st out /\ Run deadline st out.
Proof.
  intros Hstarted.
  destruct (WaitUntilRunning_total deadline st Hstarted)
    as (fuel & out & Hrun & Hfuel).
  exists out. split; [ split | exact Hrun ].
  - exists fuel. exact Hfuel.
  - intros fuel' out' H'.
    apply (Run_deterministic deadline st); [ | exact Hrun ].
    exact (WaitUntilRunning_Run _ _ _ _ Hstarted H').
Qed.

(** X9.  On a runner fresh from [__init__], [WaitUntilRunning] raises the
    assertion error that the pod has not been created, whatever the
    deadline, and touches neither the runner nor the world. *)
Theorem WaitUntilRunning_before_Start
  env model_path serving_binary serving_spec (self : KubernetesRunner)
  (w : World) (fuel : nat) (deadline : Z) :
  __init__ env model_path serving_binary serving_spec = Return self ->
  WaitUntilRunning fuel deadline (self, w)
  = Some (Raise (AssertionError
                   "Pod has not been created yet. You should call Start() first."),
          (self, w)).
Proof.
  intros Hinit. destruct (__init___fresh _ _ _ _ _ Hinit) as (Hname & _).
  unfold WaitUntilRunning. simpl. rewrite Hname. reflexivity.
Qed.

Lemma WaitUntilRunning_before_Start_witness :
  __init__ Fixture.kfp "/model" Fixture.tensorflow_serving
           (Fixture.serving_spec None) = Return (Fixture.runner None)
  /\ WaitUntilRunning 0 1100
       (Fixture.runner None, Fixture.world Fixture.flaky_then_running)
     = Some (Raise (AssertionError
                      "Pod has not been created yet. You should call Start() first."),
             (Fixture.runner None, Fixture.world Fixture.flaky_then_running)).
Proof.
  split; [ reflexivity | ].
  apply (WaitUntilRunning_before_Start Fixture.kfp "/model"
           Fixture.tensorflow_serving (Fixture.serving_spec None)).
  reflexivity.
Defined.

Lemma is_ready_iff (pod : V1Pod.t) :
  is_ready pod = true
  <-> V1PodStatus.phase (V1Pod.status pod) = Some "Running"
      /\ exists ip,
          V1PodStatus.pod_ip (V1Pod.status pod) = Some ip /\ ip <> "".
Proof.
  unfold is_ready, Py.str_eq, Py.truthy_str, _POD_PHASE_RUNNING.
  destruct (V1PodStatus.phase (V1Pod.status pod)) as [phase|];
    destruct (V1PodStatus.pod_ip (V1Pod.status pod)) as [ip|]; simpl.
  - destruct (String.eqb_spec phase "Running") as [->|Hp];
      destruct (String.eqb_spec ip "") as [->|Hi]; simpl; split;
        try discriminate; try (intros [H [ip' [H' Hne]]]; congruence).
    + intros _. split; [ reflexivity | ]. exists ip. auto.
  - rewrite andb_false_r. split; [ discriminate | ].
    intros [_ [ip [H _]]]. discriminate.
  - split; [ discriminate | intros [H _]; discriminate ].
  - split; [ discriminate | intros [H _]; discriminate ].
Qed.

Lemma is_over_iff (pod : V1Pod.t) :
  is_over pod = true
  <-> V1PodStatus.phase (V1Pod.status pod) = Some "Succeeded"
      \/ V1PodStatus.phase (V1Pod.status pod) = Some "Failed".
Proof.
  unfold is_over, Py.str_eq, _POD_PHASE_SUCCEEDED, _POD_PHASE_FAILED.
  destruct (V1PodStatus.phase (V1Pod.status pod)) as [phase|]; simpl.
  - destruct (String.eqb_spec phase "Succeeded") as [Hs|Hs];
      destruct (String.eqb_spec phase "Failed") as [Hf|Hf]; simpl; split;
        try discriminate; try (intros [H|H]; congruence);
        intros _; subst; auto.
  - split; [ discriminate | intros [H|H]; discriminate ].
Qed.

(** A run that returns normally ends with a query that found the pod
    running, with an address. *)
Lemma Run_success (deadline : Z) (st : State) (out : result unit * State) :
  Run deadline st out ->
  fst out = Return tt ->
  exists pod,
    (reads (snd st) < reads (snd (snd out)))%nat
    /\ response st (pred (reads (snd (snd out)))) = Return pod
    /\ is_ready pod = true
    /\ _endpoint (fst (snd out)) = Some (endpoint_of (fst st) pod).
Proof.
  induction 1 as [st Hge|st st' out Hlt Hpoll Hrun IH
                  |st st' Hlt Hpoll|st st' e Hlt Hpoll];
    intros Hret; simpl in *; try discriminate.
  - destruct (poll_frame _ _ _ Hpoll) as (H1 & H2 & H3 & H4 & H5 & _).
    destruct (IH Hret) as (pod & I1 & I2 & I3 & I4).
    exists pod. split; [ lia | ].
    rewrite (response_frame st st' H1 H2 H4) in I2.
    unfold endpoint_of in *. rewrite H3 in I4. auto.
  - pose proof (poll_cases st) as Hcase. rewrite Hpoll in Hcase.
    inversion Hcase as [ | |pod Hresp Hready| | ]; subst.
    exists pod. simpl. auto.
Qed.

(** X10.  When [WaitUntilRunning] returns normally, its last status query
    found the pod in phase "Running" with a non-empty address, and
    [GetEndpoint] then returns that address, a colon and the container
    port. *)
Theorem WaitUntilRunning_success_means_ready (deadline : Z) (st : State) :
  Py.truthy_str (_pod_name (fst st)) = true ->
  exists out,
    WaitUntilRunning_returns deadline st out
    /\ (fst out = Return tt ->
        exists pod ip,
          polled st (snd out) (pred (reads (snd (snd out))))
          /\ response st (pred (reads (snd (snd out)))) = Return pod
          /\ V1PodStatus.phase (V1Pod.status pod) = Some "Running"
          /\ V1PodStatus.pod_ip (V1Pod.status pod) = Some ip
          /\ ip <> ""
          /\ GetEndpoint (snd out)
             = (Return (ip ++ ":"
                        ++ Py.str_of_int
                             (serving_bins.container_port
                                (_serving_binary (fst st)))),
                snd out)).
Proof.
  intros Hstarted.
  destruct (WaitUntilRunning_returns_Run deadline st Hstarted)
    as (out & Hret & Hrun).
  exists out. split; [ exact Hret | ].
  intros Hok.
  destruct (Run_success _ _ _ Hrun Hok) as (pod & Hlt & Hresp & Hready & Hend).
  apply is_ready_iff in Hready. destruct Hready as (Hphase & ip & Hip & Hne).
  exists pod, ip. split; [ unfold polled; lia | ].
  repeat (split; [ assumption | ]).
  unfold GetEndpoint, bind, get_self. rewrite Hend.
  unfold endpoint_of. rewrite Hip. reflexivity.
Qed.

Lemma WaitUntilRunning_success_means_ready_witness :
  let st := Fixture.started Fixture.flaky_then_running in
  Py.truthy_str (_pod_name (fst st)) = true
  /\ exists out,
      WaitUntilRunning 4 1100 st = Some out
      /\ fst out = Return tt
      /\ GetEndpoint (snd out) = (Return "10.1.2.3:8500", snd out).
Proof.
  intros st. split; [ reflexivity | ].
  destruct (WaitUntilRunning_success_means_ready 1100 st eq_refl)
    as (out & (_ & Hsame) & Hready).
  exists out.
  assert (Hout : WaitUntilRunning 4 1100 st = Some out).
  { destruct (WaitUntilRunning 4 1100 st) as [out'|] eqn:E;
      [ | vm_compute in E; discriminate ].
    rewrite (Hsame 4%nat out' E). reflexivity. }
  split; [ exact Hout | ].
  assert (Hok : fst out = Return tt).
  { vm_compute in Hout. injection Hout as <-. reflexivity. }
  split; [ exact Hok | ].
  destruct (Hready Hok) as (pod & ip & _ & Hresp & _ & Hip & _ & Hget).
  rewrite Hget.
  vm_compute in Hout. injection Hout as <-.
  vm_compute in Hresp. injection Hresp as <-.
  vm_compute in Hip. injection Hip as <-. reflexivity.
Defined.

(** A turn that does not end with a ready pod leaves the runner alone. *)
Lemma poll_keeps_runner (st : State) (r : result flow) (st' : State) :
  poll st = (r, st') ->
  r <> Return Returned ->
  fst st' = fst st.
Proof.
  intros Hpoll Hr. pose proof (poll_cases st) as Hcase.
  rewrite Hpoll in Hcase.
  destruct (queried_fields st) as (Hq & _).
  inversion Hcase; subst; try (exfalso; apply Hr; reflexivity);
    try match goal with
        | |- context [waited ?msg ?s] =>
          destruct (waited_fields msg s) as (-> & _)
        end;
    exact Hq.
Qed.

(** X11.  When [WaitUntilRunning] does not return normally, the runner is
    exactly as it was: a wait that is aborted or times out resolves no
    endpoint and keeps the one there was, if any. *)
Theorem WaitUntilRunning_failure_keeps_runner (deadline : Z) (st : State) :
  Py.truthy_str (_pod_name (fst st)) = true ->
  exists out,
    WaitUntilRunning_returns deadline st out
    /\ (fst out <> Return tt ->
        fst (snd out) = fst st
        /\ fst (GetEndpoint (snd out)) = fst (GetEndpoint st)).
Proof.
  intros Hstarted.
  destruct (WaitUntilRunning_returns_Run deadline st Hstarted)
    as (out & Hret & Hrun).
  exists out. split; [ exact Hret | ].
  assert (Hkeep : fst out <> Return tt -> fst (snd out) = fst st).
  { clear Hret Hstarted.
    induction Hrun as [st Hge|st st' out Hlt Hpoll Hrun IH
                       |st st' Hlt Hpoll|st st' e Hlt Hpoll];
      intros Hne; simpl in *.
    - reflexivity.
    - rewrite (IH Hne). apply (poll_keeps_runner _ _ _ Hpoll). discriminate.
    - exfalso. apply Hne. reflexivity.
    - apply (poll_keeps_runner _ _ _ Hpoll). discriminate. }
  intros Hne. specialize (Hkeep Hne). split; [ exact Hkeep | ].
  unfold GetEndpoint, bind, get_self. rewrite Hkeep.
  destruct (_endpoint (fst st)); reflexivity.
Qed.

Lemma WaitUntilRunning_failure_keeps_runner_witness :
  let st := Fixture.started Fixture.failing in
  Py.truthy_str (_pod_name (fst st)) = true
  /\ exists out,
      WaitUntilRunning 2 1100 st = Some out
      /\ fst out <> Return tt
      /\ fst (snd out) = fst st.
Proof.
  intros st. split; [ reflexivity | ].
  destruct (WaitUntilRunning_failure_keeps_runner 1100 st eq_refl)
    as (out & (_ & Hsame) & Hkeep).
  exists out.
  assert (Hout : WaitUntilRunning 2 1100 st = Some out).
  { destruct (WaitUntilRunning 2 1100 st) as [out'|] eqn:E;
      [ | vm_compute in E; discriminate ].
    rewrite (Hsame 2%nat out' E). reflexivity. }
  split; [ exact Hout | ].
  assert (Hne : fst out <> Return tt).
  { vm_compute in Hout. injection Hout as <-. discriminate. }
  split; [ exact Hne | ]. exact (proj1 (Hkeep Hne)).
Defined.

(** A run that raises [JobAborted] against a client that fails with
    [ApiException] only ends with a query that found the pod over. *)
Lemma Run_aborted (deadline : Z) (st : State) (out : result unit * State) :
  Run deadline st out ->
  fails_with_ApiException_only (cluster (snd st)) ->
  forall msg,
    fst out = Raise (JobAborted msg) ->
    exists pod,
      (reads (snd st) < reads (snd (snd out)))%nat
      /\ response st (pred (reads (snd (snd out)))) = Return pod
      /\ is_over pod = true
      /\ msg = "Job has been aborted. (phase="
                 ++ Py.str_of_opt (V1PodStatus.phase (V1Pod.status pod))
                 ++ ")".
Proof.
  induction 1 as [st Hge|st st' out Hlt Hpoll Hrun IH
                  |st st' Hlt Hpoll|st st' e Hlt Hpoll];
    intros Hapi msg Hmsg; simpl in *; try discriminate.
  - destruct (poll_frame _ _ _ Hpoll) as (H1 & H2 & H3 & H4 & H5 & _).
    rewrite <- H4 in Hapi.
    destruct (IH Hapi msg Hmsg) as (pod & I1 & I2 & I3 & I4).
    exists pod. split; [ lia | ].
    rewrite (response_frame st st' H1 H2 H4) in I2. auto.
  - injection Hmsg as ->.
    pose proof (poll_cases st) as Hcase. rewrite Hpoll in Hcase.
    inversion Hcase as [ |e' Hresp Hne| |pod Hresp Hready Hover| ]; subst.
    + destruct (Hapi _ _ _ _ Hresp) as [status Hst]. discriminate.
    + exists pod. simpl. auto.
Qed.

(** X12.  Against a client that fails status queries with [ApiException]
    only, [WaitUntilRunning] raises [JobAborted] only after a query that
    found the pod in phase "Succeeded" or "Failed", and the message
    carries the phase of that last query. *)
Theorem WaitUntilRunning_JobAborted_means_terminal
  (deadline : Z) (st : State) :
  Py.truthy_str (_pod_name (fst st)) = true ->
  fails_with_ApiException_only (cluster (snd st)) ->
  exists out,
    WaitUntilRunning_returns deadline st out
    /\ forall msg,
        fst out = Raise (JobAborted msg) ->
        exists pod phase,
          polled st (snd out) (pred (reads (snd (snd out))))
          /\ response st (pred (reads (snd (snd out)))) = Return pod
          /\ V1PodStatus.phase (V1Pod.status pod) = Some phase
          /\ (phase = "Succeeded" \/ phase = "Failed")
          /\ msg = "Job has been aborted. (phase=" ++ phase ++ ")".
Proof.
  intros Hstarted Hapi.
  destruct (WaitUntilRunning_returns_Run deadline st Hstarted)
    as (out & Hret & Hrun).
  exists out. split; [ exact Hret | ].
  intros msg Hmsg.
  destruct (Run_aborted _ _ _ Hrun Hapi msg Hmsg)
    as (pod & Hlt & Hresp & Hover & ->).
  apply is_over_iff in Hover.
  destruct Hover as [Hphase|Hphase];
    [ exists pod, "Succeeded" | exists pod, "Failed" ];
    (split; [ unfold polled; lia | ]);
    rewrite Hphase; auto.
Qed.

Lemma failing_fails_with_ApiException_only :
  fails_with_ApiException_only Fixture.failing.
Proof.
  intros k name namespace e H. simpl in H.
  destruct k as [|[|[|[|k]]]]; simpl in H; discriminate.
Qed.

Lemma WaitUntilRunning_JobAborted_means_terminal_witness :
  let st := Fixture.started Fixture.failing in
  Py.truthy_str (_pod_name (fst st)) = true
  /\ fails_with_ApiException_only (cluster (snd st))
  /\ exists out,
      WaitUntilRunning 2 1100 st = Some out
      /\ fst out = Raise (JobAborted "Job has been aborted. (phase=Failed)")
      /\ exists pod,
          response st (pred (reads (snd (snd out)))) = Return pod
          /\ V1PodStatus.phase (V1Pod.status pod) = Some "Failed".
Proof.
  intros st. split; [ reflexivity | ].
  split; [ exact failing_fails_with_ApiException_only | ].
  destruct (WaitUntilRunning_JobAborted_means_terminal 1100 st eq_refl
              failing_fails_with_ApiException_only)
    as (out & (_ & Hsame) & Hterm).
  exists out.
  assert (Hout : WaitUntilRunning 2 1100 st = Some out).
  { destruct (WaitUntilRunning 2 1100 st) as [out'|] eqn:E;
      [ | vm_compute in E; discriminate ].
    rewrite (Hsame 2%nat out' E). reflexivity. }
  split; [ exact Hout | ].
  assert (Hres : fst out
                 = Raise (JobAborted "Job has been aborted. (phase=Failed)")).
  { vm_compute in Hout. injection Hout as <-. reflexivity. }
  split; [ exact Hres | ].
  destruct (Hterm _ Hres) as (pod & phase & _ & Hresp & Hphase & _ & _).
  exists pod. split; [ exact Hresp | ].
  vm_compute in Hout. injection Hout as <-.
  vm_compute in Hresp. injection Hresp as <-. reflexivity.
Defined.





(** A run that makes no status query is one that found the deadline
    passed. *)
Lemma Run_without_poll (deadline : Z) (st : State) (out : result unit * State) :
  Run deadline st out ->
  reads (snd (snd out)) = reads (snd st) ->
  out = (Raise (DeadlineExceeded
                  "Deadline exceeded while waiting for pod to be running."),
         st)
  /\ deadline <= clock (snd st).
Proof.
  intros Hrun Hsame.
  inversion Hrun as [s Hge|s st' o Hlt Hpoll Hrest
                     |s st' Hlt Hpoll|s st' e Hlt Hpoll]; subst; simpl in *.
  - auto.
  - destruct (poll_frame _ _ _ Hpoll) as (_ & _ & _ & _ & H5 & _).
    destruct (Run_frame _ _ _ Hrest) as (_ & _ & _ & _ & I5 & _). lia.
  - destruct (poll_frame _ _ _ Hpoll) as (_ & _ & _ & _ & H5 & _). lia.
  - destruct (poll_frame _ _ _ Hpoll) as (_ & _ & _ & _ & H5 & _). lia.
Qed.

(** Every status query but the last one costs at least the polling
    interval, and each one starts before the deadline. *)
Lemma Run_query_bound (deadline : Z) (st : State) (out : result unit * State) :
  Run deadline st out ->
  (reads (snd st) < reads (snd (snd out)))%nat ->
  clock (snd st)
  + _DEFAULT_POLLING_INTERVAL_SEC
    * (Z.of_nat (reads (snd (snd out)) - reads (snd st)) - 1)
  < deadline.
Proof.
  unfold _DEFAULT_POLLING_INTERVAL_SEC.
  induction 1 as [st Hge|st st' out Hlt Hpoll Hrun IH
                  |st st' Hlt Hpoll|st st' e Hlt Hpoll];
    intros Hmade; cbn [fst snd] in *.
  - lia.
  - destruct (poll_frame _ _ _ Hpoll) as (_ & _ & _ & _ & H5 & _).
    pose proof (poll_NextTurn_clock _ _ Hpoll) as Hclock.
    unfold _DEFAULT_POLLING_INTERVAL_SEC in Hclock.
    destruct (Run_frame _ _ _ Hrun) as (_ & _ & _ & _ & I5 & _).
    destruct (Nat.eq_dec (reads (snd (snd out))) (reads (snd st')))
      as [Heq|Hne].
    + rewrite Heq, H5.
      replace (S (reads (snd st)) - reads (snd st))%nat with 1%nat by lia.
      lia.
    + assert (Hmore : (reads (snd st') < reads (snd (snd out)))%nat) by lia.
      specialize (IH Hmore). lia.
  - destruct (poll_frame _ _ _ Hpoll) as (_ & _ & _ & _ & H5 & _).
    rewrite H5.
    replace (S (reads (snd st)) - reads (snd st))%nat with 1%nat by lia.
    lia.
  - destruct (poll_frame _ _ _ Hpoll) as (_ & _ & _ & _ & H5 & _).
    rewrite H5.
    replace (S (reads (snd st)) - reads (snd st))%nat with 1%nat by lia.
    lia.
Qed.

(** X14.  [WaitUntilRunning] makes no status query when the clock has
    reached the deadline, and otherwise at most one query per started
    polling interval between the clock and the deadline: with n queries,
    5 * (n - 1) seconds fit before the deadline. *)
Theorem WaitUntilRunning_query_bound (deadline : Z) (st : State) :
  Py.truthy_str (_pod_name (fst st)) = true ->
  exists out,
    WaitUntilRunning_returns deadline st out
    /\ let n := (reads (snd (snd out)) - reads (snd st))%nat in
       (n = 0%nat <-> deadline <= clock (snd st))
       /\ (n <> 0%nat -> clock (snd st) + 5 * (Z.of_nat n - 1) < deadline).
Proof.
  intros Hstarted.
  destruct (WaitUntilRunning_returns_Run deadline st Hstarted)
    as (out & Hret & Hrun).
  exists out. split; [ exact Hret | ].
  destruct (Run_frame _ _ _ Hrun) as (_ & _ & _ & _ & Hle & _).
  cbv zeta. split; [ split | ].
  - intros Hn.
    destruct (Run_without_poll _ _ _ Hrun) as [_ H]; [ lia | exact H ].
  - intros Hpast.
    assert (Hout : out
                   = (Raise (DeadlineExceeded
                               "Deadline exceeded while waiting for pod to be running."),
                      st)).
    { apply (Run_deterministic deadline st); [ exact Hrun | ].
      apply Run_timeout. exact Hpast. }
    rewrite Hout. simpl. lia.
  - intros Hn. apply (Run_query_bound _ _ _ Hrun). lia.
Qed.

Lemma WaitUntilRunning_query_bound_witness :
  let st := Fixture.started Fixture.unreachable in
  Py.truthy_str (_pod_name (fst st)) = true
  /\ exists out,
      WaitUntilRunning 4 1013 st = Some out
      /\ (reads (snd (snd out)) - reads (snd st))%nat = 3%nat
      /\ clock (snd st) + 5 * (3 - 1) < 1013.
Proof.
  intros st. split; [ reflexivity | ].
  destruct (WaitUntilRunning_query_bound 1013 st eq_refl)
    as (out & (_ & Hsame) & _ & Hbound).
  exists out.
  assert (Hout : WaitUntilRunning 4 1013 st = Some out).
  { destruct (WaitUntilRunning 4 1013 st) as [out'|] eqn:E;
      [ | vm_compute in E; discriminate ].
    rewrite (Hsame 4%nat out' E). reflexivity. }
  split; [ exact Hout | ].
  assert (Hn : (reads (snd (snd out)) - reads (snd st))%nat = 3%nat).
  { vm_compute in Hout. injection Hout as <-. reflexivity. }
  split; [ exact Hn | ].
  rewrite Hn in Hbound. apply Hbound. discriminate.
Defined.

(** The events of one turn. *)
Lemma poll_events (st : State) (r : result flow) (st' : State) :
  poll st = (r, st') ->
  exists more,
    trace (snd st') = (trace (snd st) ++ more)%list
    /\ Forall (wait_event st) more.
Proof.
  intros Hpoll. pose proof (poll_cases st) as Hcase. rewrite Hpoll in Hcase.
  destruct (queried_fields st) as (_ & _ & _ & _ & _ & Hq).
  assert (Hread : wait_event st
                    (EvRead (_pod_name (fst st)) (_namespace (fst st)))).
  { left. reflexivity. }
  assert (Hlog : forall msg, wait_event st (EvLog INFO msg)).
  { intros msg. right. left. exists msg. reflexivity. }
  assert (Hsleep : wait_event st (EvSleep _DEFAULT_POLLING_INTERVAL_SEC)).
  { right. right. reflexivity. }
  assert (Hquery : Forall (wait_event st)
                     [EvRead (_pod_name (fst st)) (_namespace (fst st))]).
  { constructor; [ exact Hread | constructor ]. }
  assert (Hwait : forall msg,
             Forall (wait_event st)
               [EvRead (_pod_name (fst st)) (_namespace (fst st));
                EvLog INFO msg; EvSleep _DEFAULT_POLLING_INTERVAL_SEC]).
  { intros msg. constructor; [ exact Hread | ].
    constructor; [ apply Hlog | ].
    constructor; [ exact Hsleep | constructor ]. }
  inversion Hcase; subst; clear Hcase;
    first
      [ match goal with
        | |- context [waited ?msg ?s] =>
          destruct (waited_fields msg s) as (_ & _ & _ & _ & _ & Hw);
            rewrite Hw, Hq, <- app_assoc; simpl;
            eexists; split; [ reflexivity | apply Hwait ]
        end
      | simpl; rewrite ?Hq; eexists; split; [ reflexivity | exact Hquery ] ].
Qed.

Lemma Run_events (deadline : Z) (st : State) (out : result unit * State) :
  Run deadline st out ->
  Forall (wait_event st) (events_since st (snd out)).
Proof.
  induction 1 as [st Hge|st st' out Hlt Hpoll Hrun IH
                  |st st' Hlt Hpoll|st st' e Hlt Hpoll]; simpl.
  - rewrite (events_since_app st st []); [ constructor | ].
    rewrite app_nil_r. reflexivity.
  - destruct (poll_events _ _ _ Hpoll) as (more & Htr & Hmore).
    destruct (poll_frame _ _ _ Hpoll) as (H1 & H2 & _).
    destruct (Run_frame _ _ _ Hrun) as (_ & _ & _ & _ & _ & _ & I7).
    rewrite (events_since_app st (snd out)
               (more ++ events_since st' (snd out))).
    + apply Forall_app. split; [ exact Hmore | ].
      unfold wait_event in *. rewrite H1, H2 in IH. exact IH.
    + rewrite I7, Htr, <- app_assoc. reflexivity.
  - destruct (poll_events _ _ _ Hpoll) as (more & Htr & Hmore).
    rewrite (events_since_app st st' more Htr). exact Hmore.
  - destruct (poll_events _ _ _ Hpoll) as (more & Htr & Hmore).
    rewrite (events_since_app st st' more Htr). exact Hmore.
Qed.

(** X15.  All that [WaitUntilRunning] does to the world is query the pod
    of its own name in its own namespace, write log lines at level INFO
    and sleep for five seconds at a time: it sends no creation and no
    deletion request, and the pod name of the runner stays as it is. *)
Theorem WaitUntilRunning_only_reads_own_pod (deadline : Z) (st : State) :
  Py.truthy_str (_pod_name (fst st)) = true ->
  exists out,
    WaitUntilRunning_returns deadline st out
    /\ Forall (wait_event st) (events_since st (snd out))
    /\ trace (snd (snd out))
       = (trace (snd st) ++ events_since st (snd out))%list
    /\ filter is_create (events_since st (snd out)) = []
    /\ deletes (snd (snd out)) = deletes (snd st)
    /\ _pod_name (fst (snd out)) = _pod_name (fst st).
Proof.
  intros Hstarted.
  destruct (WaitUntilRunning_returns_Run deadline st Hstarted)
    as (out & Hret & Hrun).
  exists out. split; [ exact Hret | ].
  pose proof (Run_events _ _ _ Hrun) as Hev.
  assert (Hnone : forall l,
             Forall (wait_event st) l -> filter is_create l = []).
  { induction 1 as [|e l He _ IH]; [ reflexivity | ].
    simpl. destruct He as [->|[[msg ->]| ->]]; exact IH. }
  destruct (Run_frame _ _ _ Hrun) as (F1 & _ & _ & _ & _ & F6 & F7).
  split; [ exact Hev | ]. split; [ exact F7 | ].
  split; [ exact (Hnone _ Hev) | split; [ exact F6 | exact F1 ] ].
Qed.

Lemma WaitUntilRunning_only_reads_own_pod_witness :
  let st := Fixture.started Fixture.flaky_then_running in
  Py.truthy_str (_pod_name (fst st)) = true
  /\ exists out,
      WaitUntilRunning 4 1100 st = Some out
      /\ Forall (wait_event st) (events_since st (snd out))
      /\ List.length (events_since st (snd out)) = 10%nat.
Proof.
  intros st. split; [ reflexivity | ].
  destruct (WaitUntilRunning_only_reads_own_pod 1100 st eq_refl)
    as (out & (_ & Hsame) & Hev & _).
  exists out.
  assert (Hout : WaitUntilRunning 4 1100 st = Some out).
  { destruct (WaitUntilRunning 4 1100 st) as [out'|] eqn:E;
      [ | vm_compute in E; discriminate ].
    rewrite (Hsame 4%nat out' E). reflexivity. }
  split; [ exact Hout | ]. split; [ exact Hev | ].
  vm_compute in Hout. injection Hout as <-. reflexivity.
Defined.

(** A run that times out has slept for the polling interval after every
    one of its status queries. *)
Lemma Run_timeout_elapsed
  (deadline : Z) (st : State) (out : result unit * State) :
  Run deadline st out ->
  fails_with_ApiException_only (cluster (snd st)) ->
  forall msg,
    fst out = Raise (DeadlineExceeded msg) ->
    clock (snd st)
    + _DEFAULT_POLLING_INTERVAL_SEC
      * Z.of_nat (reads (snd (snd out)) - reads (snd st))
    <= clock (snd (snd out)).
Proof.
  unfold _DEFAULT_POLLING_INTERVAL_SEC.
  induction 1 as [st Hge|st st' out Hlt Hpoll Hrun IH
                  |st st' Hlt Hpoll|st st' e Hlt Hpoll];
    intros Hapi msg Hmsg; cbn [fst snd] in *; try discriminate.
  - rewrite Nat.sub_diag. lia.
  - destruct (poll_frame _ _ _ Hpoll) as (_ & _ & _ & H4 & H5 & _).
    pose proof (poll_NextTurn_clock _ _ Hpoll) as Hclock.
    unfold _DEFAULT_POLLING_INTERVAL_SEC in Hclock.
    destruct (Run_frame _ _ _ Hrun) as (_ & _ & _ & _ & I5 & _).
    rewrite <- H4 in Hapi. specialize (IH Hapi msg Hmsg).
    replace (Z.of_nat (reads (snd (snd out)) - reads (snd st)))
      with (Z.of_nat (reads (snd (snd out)) - reads (snd st')) + 1) by lia.
    lia.
  - injection Hmsg as ->.
    pose proof (poll_cases st) as Hcase. rewrite Hpoll in Hcase.
    inversion Hcase as [ |e' Hresp Hne| | | ]; subst.
    destruct (Hapi _ _ _ _ Hresp) as [status Hst]. discriminate.
Qed.

(** X16.  Against a client that fails status queries with [ApiException]
    only, a [WaitUntilRunning] that raises [DeadlineExceeded] does so no
    earlier than the deadline, and no earlier than five seconds for each
    status query it made after it was called. *)
Theorem WaitUntilRunning_timeout_not_early (deadline : Z) (st : State) :
  Py.truthy_str (_pod_name (fst st)) = true ->
  fails_with_ApiException_only (cluster (snd st)) ->
  exists out,
    WaitUntilRunning_returns deadline st out
    /\ forall msg,
        fst out = Raise (DeadlineExceeded msg) ->
        deadline <= clock (snd (snd out))
        /\ clock (snd st)
           + 5 * Z.of_nat (reads (snd (snd out)) - reads (snd st))
           <= clock (snd (snd out)).
Proof.
  intros Hstarted Hapi.
  destruct (WaitUntilRunning_returns_Run deadline st Hstarted)
    as (out & Hret & Hrun).
  exists out. split; [ exact Hret | ].
  intros msg Hmsg. split.
  - destruct (Run_outcome _ _ _ Hrun Hapi) as [H|[[m H]|[_ H]]];
      [ congruence | congruence | exact H ].
  - exact (Run_timeout_elapsed _ _ _ Hrun Hapi msg Hmsg).
Qed.

Lemma unreachable_fails_with_ApiException_only :
  fails_with_ApiException_only Fixture.unreachable.
Proof.
  intros k name namespace e H. simpl in H.
  destruct k as [|[|k]]; simpl in H; injection H as <-; eexists; reflexivity.
Qed.

Lemma WaitUntilRunning_timeout_not_early_witness :
  let st := Fixture.started Fixture.unreachable in
  Py.truthy_str (_pod_name (fst st)) = true
  /\ fails_with_ApiException_only (cluster (snd st))
  /\ exists out,
      WaitUntilRunning 4 1013 st = Some out
      /\ fst out
         = Raise (DeadlineExceeded
                    "Deadline exceeded while waiting for pod to be running.")
      /\ (reads (snd (snd out)) - reads (snd st))%nat = 3%nat
      /\ 1013 <= clock (snd (snd out))
      /\ clock (snd st) + 5 * 3 <= clock (snd (snd out)).
Proof.
  intros st. split; [ reflexivity | ].
  split; [ exact unreachable_fails_with_ApiException_only | ].
  destruct (WaitUntilRunning_timeout_not_early 1013 st eq_refl
              unreachable_fails_with_ApiException_only)
    as (out & (_ & Hsame) & Hlate).
  exists out.
  assert (Hout : WaitUntilRunning 4 1013 st = Some out).
  { destruct (WaitUntilRunning 4 1013 st) as [out'|] eqn:E;
      [ | vm_compute in E; discriminate ].
    rewrite (Hsame 4%nat out' E). reflexivity. }
  split; [ exact Hout | ].
  assert (Hres : fst out
                 = Raise (DeadlineExceeded
                            "Deadline exceeded while waiting for pod to be running.")).
  { vm_compute in Hout. injection Hout as <-. reflexivity. }
  split; [ exact Hres | ].
  assert (Hn : (reads (snd (snd out)) - reads (snd st))%nat = 3%nat).
  { vm_compute in Hout. injection Hout as <-. reflexivity. }
  split; [ exact Hn | ].
  destruct (Hlate _ Hres) as [Hge Hel]. rewrite Hn in Hel.
  split; [ exact Hge | exact Hel ].
Defined.

(** ** [Stop], further *)

(** The events of one turn of the loop of [Stop]. *)
Lemma delete_once_events (st : State) (r : result flow) (st' : State) :
  delete_once st = (r, st') ->
  r = verdict (deletion st (deletes (snd st)))
  /\ exists tail,
      trace (snd st')
      = (trace (snd st)
           ++ EvLog INFO "Deleting Pod (name=%s)"
           :: EvDelete (_pod_name (fst st)) (_namespace (fst st)) :: tail)%list
      /\ Forall (fun e => is_log e = true) tail
      /\ (r <> Return NextTurn ->
          (forall status,
              deletion st (deletes (snd st)) <> Raise (ApiException status)) ->
          tail = []).
Proof.
  intros Hdel. pose proof (delete_cases st) as Hcase. rewrite Hdel in Hcase.
  destruct (requested_fields st) as (_ & _ & _ & _ & Hr).
  inversion Hcase as [Hok|status Hans H404|status Hans H404|e Hans Hne];
    subst; clear Hcase;
    repeat match goal with
           | |- context [logged ?l ?msg ?s] =>
             destruct (logged_fields l msg s) as (_ & _ & _ & _ & ->)
           end;
    rewrite Hr, <- ?app_assoc; simpl.
  - rewrite Hok. split; [ reflexivity | ].
    exists []. split; [ reflexivity | ]. split; [ constructor | auto ].
  - rewrite Hans. simpl. rewrite H404. split; [ reflexivity | ].
    eexists. split; [ reflexivity | ].
    split; [ repeat constructor | ].
    intros _ H. destruct (H status). reflexivity.
  - rewrite Hans. simpl. rewrite H404. split; [ reflexivity | ].
    eexists. split; [ reflexivity | ].
    split; [ repeat constructor | ].
    intros H. destruct H. reflexivity.
  - rewrite Hans. split.
    + destruct e; try reflexivity. destruct (Hne status). reflexivity.
    + exists []. split; [ reflexivity | ]. split; [ constructor | auto ].
Qed.

(** The loop of [Stop] ends with the first deletion request whose answer
    does not make the turn fall through. *)
Lemma for_each_turn_ends_at (turns : list time_utils.turn) :
  forall st r st' k,
    for_each_turn turns delete_once st = (r, st') ->
    attempted st st' k ->
    verdict (deletion st k) <> Return NextTurn ->
    r = verdict (deletion st k)
    /\ deletes (snd st') = S k
    /\ ((forall status, deletion st k <> Raise (ApiException status)) ->
        exists before,
          events_since st st'
          = (before
               ++ [EvDelete (_pod_name (fst st)) (_namespace (fst st))])%list).
Proof.
  unfold attempted.
  induction turns as [|t rest IH]; intros st r st' k H Hk Hend.
  - injection H as <- <-. lia.
  - rewrite for_each_turn_cons in H.
    destruct (generator_sleep t st) as [[u|e] st1] eqn:Hsleep.
    + destruct (generator_sleep_frame _ _ _ _ Hsleep)
        as (S1 & S2 & S3 & m1 & S4).
      pose proof (deletion_frame st st1 S1 S2) as Hsame1.
      destruct (delete_once st1) as [r1 st2] eqn:Hdel.
      destruct (delete_once_frame _ _ _ Hdel) as (D1 & D2 & D3 & _).
      destruct (delete_once_events _ _ _ Hdel)
        as (Hr1 & tail & D4 & _ & Htail).
      rewrite Hsame1, S3 in Hr1.
      destruct (Nat.eq_dec k (deletes (snd st))) as [->|Hne].
      * assert (Hst' : r = r1 /\ st' = st2).
        { destruct r1 as [[|]|e]; [ | injection H as <- <-; auto
                                    | injection H as <- <-; auto ].
          exfalso. apply Hend. symmetry. exact Hr1. }
        destruct Hst' as [-> ->].
        split; [ exact Hr1 | ]. split; [ lia | ].
        intros Hans.
        rewrite Htail in D4;
          [ | rewrite Hr1; exact Hend
            | intros status; rewrite Hsame1, S3; apply Hans ].
        exists (m1 ++ [EvLog INFO "Deleting Pod (name=%s)"])%list.
        apply events_since_app.
        rewrite D4, S4, S1, <- !app_assoc. reflexivity.
      * destruct r1 as [[|]|e]; try (injection H as <- <-; lia).
        destruct (for_each_turn_frame _ _ _ _ H) as (F1 & F2 & F3 & F4).
        pose proof (deletion_frame st1 st2 D1 D2) as Hsame2.
        destruct (IH st2 r st' k H) as (I1 & I2 & I3);
          [ lia | rewrite Hsame2, Hsame1; exact Hend | ].
        rewrite Hsame2, Hsame1 in I1.
        split; [ exact I1 | ]. split; [ exact I2 | ].
        intros Hans.
        destruct I3 as [before I3];
          [ intros status; rewrite Hsame2, Hsame1; apply Hans | ].
        exists (m1 ++ EvLog INFO "Deleting Pod (name=%s)"
                   :: EvDelete (_pod_name (fst st)) (_namespace (fst st))
                   :: tail ++ before)%list.
        apply events_since_app.
        rewrite F4, I3, D4, S4, D1, S1.
        repeat (rewrite <- app_assoc; simpl). reflexivity.
    + injection H as <- <-.
      destruct (generator_sleep_frame _ _ _ _ Hsleep) as (_ & _ & S3 & _).
      lia.
Qed.

(** What [Stop] returns, from what its loop returns. *)
Lemma Stop_unfold (d : time_utils.defaults) (st : State) :
  Stop d st
  = match for_each_turn (time_utils.exponential_backoff d 5) delete_once st with
    | (Return Returned, st') => (Return tt, st')
    | (Return NextTurn, st') =>
      (Return tt,
       (fst st',
        emit (EvLog WARNING "Unable to delete the model server Pod.")
             (snd st')))
    | (Raise e, st') => (Raise e, st')
    end.
Proof.
  unfold Stop, bind.
  destruct (for_each_turn _ delete_once st) as [[[|]|e] st']; reflexivity.
Qed.

(** X17.  If a deletion request that [Stop] made succeeded, [Stop]
    returned normally right after it: that request is the last thing it
    did, and no warning was logged. *)
Theorem Stop_returns_on_success
  (d : time_utils.defaults) (st : State) (k : nat) :
  deletion st k = Return tt ->
  attempted st (snd (Stop d st)) k ->
  fst (Stop d st) = Return tt
  /\ deletes (snd (snd (Stop d st))) = S k
  /\ exists before,
      events_since st (snd (Stop d st))
      = (before
           ++ [EvDelete (_pod_name (fst st)) (_namespace (fst st))])%list.
Proof.
  intros Hans. rewrite Stop_unfold.
  destruct (for_each_turn (time_utils.exponential_backoff d 5) delete_once st)
    as [r st'] eqn:Hloop.
  assert (Hk : attempted st
                 (snd match r with
                      | Return Returned => (@Return unit tt, st')
                      | Return NextTurn =>
                        (Return tt,
                         (fst st',
                          emit (EvLog WARNING
                                  "Unable to delete the model server Pod.")
                               (snd st')))
                      | Raise e => (Raise e, st')
                      end) k
               -> attempted st st' k).
  { destruct r as [[|]|e]; auto. }
  intros Hatt. apply Hk in Hatt.
  destruct (for_each_turn_ends_at _ _ _ _ k Hloop Hatt) as (Hr & Hn & Hev).
  { rewrite Hans. discriminate. }
  rewrite Hans in Hr. simpl in Hr. subst r. simpl.
  split; [ reflexivity | ]. split; [ exact Hn | ].
  apply Hev. intros status. rewrite Hans. discriminate.
Qed.

Lemma Stop_returns_on_success_witness :
  let st := Fixture.started Fixture.flaky_then_running in
  deletion st 0 = Return tt
  /\ attempted st (snd (Stop Fixture.backoff st)) 0
  /\ fst (Stop Fixture.backoff st) = Return tt
  /\ events_since st (snd (Stop Fixture.backoff st))
     = [EvLog INFO "Deleting Pod (name=%s)";
        EvDelete (Some Fixture.server) "kubeflow"].
Proof.
  intros st.
  split; [ reflexivity | ]. split; [ vm_compute; lia | ].
  destruct (Stop_returns_on_success Fixture.backoff st 0)
    as (H1 & _ & _); [ reflexivity | vm_compute; lia | ].
  split; [ exact H1 | reflexivity ].
Defined.

(** X18.  [Stop] catches [ApiException] only: if a deletion request that
    it made raised anything else, [Stop] raised that exception right
    after the request, without a retry and without the warning. *)
Theorem Stop_propagates_other_errors
  (d : time_utils.defaults) (st : State) (k : nat) (e : exn) :
  deletion st k = Raise e ->
  (forall status, e <> ApiException status) ->
  attempted st (snd (Stop d st)) k ->
  fst (Stop d st) = Raise e
  /\ deletes (snd (snd (Stop d st))) = S k
  /\ exists before,
      events_since st (snd (Stop d st))
      = (before
           ++ [EvDelete (_pod_name (fst st)) (_namespace (fst st))])%list.
Proof.
  intros Hans Hother. rewrite Stop_unfold.
  destruct (for_each_turn (time_utils.exponential_backoff d 5) delete_once st)
    as [r st'] eqn:Hloop.
  assert (Hverdict : verdict (deletion st k) = Raise e).
  { rewrite Hans. destruct e; try reflexivity.
    destruct (Hother status). reflexivity. }
  assert (Hk : attempted st
                 (snd match r with
                      | Return Returned => (@Return unit tt, st')
                      | Return NextTurn =>
                        (Return tt,
                         (fst st',
                          emit (EvLog WARNING
                                  "Unable to delete the model server Pod.")
                               (snd st')))
                      | Raise e => (Raise e, st')
                      end) k
               -> attempted st st' k).
  { destruct r as [[|]|e']; auto. }
  intros Hatt. apply Hk in Hatt.
  destruct (for_each_turn_ends_at _ _ _ _ k Hloop Hatt) as (Hr & Hn & Hev).
  { rewrite Hverdict. discriminate. }
  rewrite Hverdict in Hr. subst r. simpl.
  split; [ reflexivity | ]. split; [ exact Hn | ].
  apply Hev. intros status. rewrite Hans. intros H. injection H as ->.
  destruct (Hother status). reflexivity.
Qed.

Lemma Stop_propagates_other_errors_witness :
  let broken :=
    Fixture.scripted [ Return (Fixture.a_pod Fixture.server (Some "Pending") None) ]
                     (Raise (ValueError "Missing the required parameter")) in
  let st := Fixture.started broken in
  deletion st 0 = Raise (ValueError "Missing the required parameter")
  /\ attempted st (snd (Stop Fixture.backoff st)) 0
  /\ fst (Stop Fixture.backoff st)
     = Raise (ValueError "Missing the required parameter")
  /\ deletes (snd (snd (Stop Fixture.backoff st))) = 1%nat.
Proof.
  intros broken st.
  split; [ reflexivity | ]. split; [ vm_compute; lia | ].
  destruct (Stop_propagates_other_errors Fixture.backoff st 0
              (ValueError "Missing the required parameter"))
    as (H1 & H2 & _);
    [ reflexivity | discriminate | vm_compute; lia | ].
  split; [ exact H1 | exact H2 ].
Defined.

Lemma Stop_frame (d : time_utils.defaults) (st : State) :
  fst (snd (Stop d st)) = fst st.
Proof.
  rewrite Stop_unfold.
  destruct (for_each_turn (time_utils.exponential_backoff d 5) delete_once
              st) as [r st'] eqn:Hloop.
  destruct (for_each_turn_frame _ _ _ _ Hloop) as (F1 & _).
  destruct r as [[|]|e]; exact F1.
Qed.

(** X19.  [Stop] changes nothing of the runner: the pod name and the
    endpoint stay.  So, whatever [Stop] did, [GetEndpoint] answers after
    it as it did before, and on a started runner [Start] is refused after
    [Stop] as it was before. *)
Theorem Stop_keeps_runner (d : time_utils.defaults) (st : State) :
  fst (snd (Stop d st)) = fst st
  /\ fst (GetEndpoint (snd (Stop d st))) = fst (GetEndpoint st)
  /\ (Py.truthy_str (_pod_name (fst st)) = true ->
      Start (snd (Stop d st))
      = (Raise (AssertionError
                  "You cannot start model server multiple times."),
         snd (Stop d st))).
Proof.
  pose proof (Stop_frame d st) as Hkeep.
  split; [ exact Hkeep | ]. split.
  - unfold GetEndpoint, bind, get_self. rewrite Hkeep.
    destruct (_endpoint (fst st)); reflexivity.
  - intros Hstarted. rewrite Start_unfold, Hkeep, Hstarted. reflexivity.
Qed.

(** The events of the sleep of the generator and of the loop. *)
Lemma generator_sleep_events (t : time_utils.turn) (st : State)
  (r : result unit) (st' : State) :
  generator_sleep t st = (r, st') ->
  exists more,
    trace (snd st') = (trace (snd st) ++ more)%list
    /\ Forall (stop_event st) more.
Proof.
  destruct st as [self w]. unfold generator_sleep, time_sleep, ret.
  destruct (time_utils.sleep_before t) as [seconds|]; simpl.
  - destruct (seconds <? 0); intros H; injection H as <- <-; simpl.
    + exists []. rewrite app_nil_r. split; [ reflexivity | constructor ].
    + eexists. split; [ reflexivity | ].
      constructor; [ | constructor ]. right. right. eexists. reflexivity.
  - intros H; injection H as <- <-; simpl.
    exists []. rewrite app_nil_r. split; [ reflexivity | constructor ].
Qed.

Lemma for_each_turn_events (turns : list time_utils.turn) :
  forall st r st',
    for_each_turn turns delete_once st = (r, st') ->
    Forall (stop_event st) (events_since st st')
    /\ (deletes (snd st') <= deletes (snd st) + List.length turns)%nat
    /\ reads (snd st') = reads (snd st).
Proof.
  assert (Hdel : forall s r s',
             delete_once s = (r, s') ->
             reads (snd s') = reads (snd s)
             /\ exists more,
                 trace (snd s') = (trace (snd s) ++ more)%list
                 /\ Forall (stop_event s) more).
  { intros s r s' H.
    destruct (delete_once_events _ _ _ H) as (_ & tail & Htr & Hlogs & _).
    split.
    - pose proof (delete_cases s) as Hcase. rewrite H in Hcase.
      destruct (requested_fields s) as (_ & _ & Hr & _).
      inversion Hcase; subst;
        repeat match goal with
               | |- context [logged ?l ?msg ?x] =>
                 destruct (logged_fields l msg x) as (_ & _ & -> & _)
               end;
        exact Hr.
    - eexists. split; [ exact Htr | ].
      constructor; [ right; left; reflexivity | ].
      constructor; [ left; reflexivity | ].
      eapply Forall_impl; [ | exact Hlogs ].
      intros e He. right. left. exact He. }
  assert (Hsleep : forall t s r s',
             generator_sleep t s = (r, s') -> reads (snd s') = reads (snd s)).
  { intros t [self w] r s'. unfold generator_sleep, time_sleep, ret.
    destruct (time_utils.sleep_before t) as [seconds|]; simpl;
      [ destruct (seconds <? 0) | ];
      intros H; injection H as <- <-; reflexivity. }
  induction turns as [|t rest IH]; intros st r st' H.
  - injection H as <- <-.
    rewrite (events_since_app st st []);
      [ | rewrite app_nil_r; reflexivity ].
    split; [ constructor | ]. split; [ lia | reflexivity ].
  - rewrite for_each_turn_cons in H.
    destruct (generator_sleep t st) as [[u|e] st1] eqn:Hs.
    + destruct (generator_sleep_frame _ _ _ _ Hs) as (S1 & _ & S3 & _).
      destruct (generator_sleep_events _ _ _ _ Hs) as (m1 & S4 & S5).
      pose proof (Hsleep _ _ _ _ Hs) as S6.
      destruct (delete_once st1) as [r1 st2] eqn:Hd.
      destruct (delete_once_frame _ _ _ Hd) as (D1 & _ & D3 & _).
      destruct (Hdel _ _ _ Hd) as (D6 & m2 & D4 & D5).
      assert (D5' : Forall (stop_event st) m2).
      { unfold stop_event in *. rewrite S1 in D5. exact D5. }
      assert (Hhere : Forall (stop_event st) (events_since st st2)
                      /\ (deletes (snd st2)
                          <= deletes (snd st) + List.length (t :: rest))%nat
                      /\ reads (snd st2) = reads (snd st)).
      { rewrite (events_since_app st st2 (m1 ++ m2)).
        - split; [ apply Forall_app; auto | ]. simpl. split; lia.
        - rewrite D4, S4, <- app_assoc. reflexivity. }
      destruct r1 as [[|]|e]; try (injection H as <- <-; exact Hhere).
      destruct (IH _ _ _ H) as (I1 & I2 & I3).
      destruct (for_each_turn_frame _ _ _ _ H) as (_ & _ & _ & F4).
      rewrite (events_since_app st st' (m1 ++ m2 ++ events_since st2 st')).
      * split; [ | simpl; split; lia ].
        apply Forall_app. split; [ exact S5 | ].
        apply Forall_app. split; [ exact D5' | ].
        unfold stop_event in *. rewrite D1, S1 in I1. exact I1.
      * rewrite F4, D4, S4, <- !app_assoc. reflexivity.
    + injection H as <- <-.
      destruct (generator_sleep_frame _ _ _ _ Hs) as (_ & _ & S3 & _).
      destruct (generator_sleep_events _ _ _ _ Hs) as (m1 & S4 & S5).
      rewrite (events_since_app st st1 m1 S4).
      split; [ exact S5 | ]. split; [ lia | ].
      exact (Hsleep _ _ _ _ Hs).
Qed.

(** X20.  All that [Stop] does to the world is ask for the deletion of
    the pod of its own name in its own namespace, log and sleep: it makes
    at least one and at most five deletion requests, the first one at
    once, and no status query and no creation request. *)
Theorem Stop_only_deletes_own_pod (d : time_utils.defaults) (st : State) :
  Forall (stop_event st) (events_since st (snd (Stop d st)))
  /\ (deletes (snd st) < deletes (snd (snd (Stop d st)))
      <= deletes (snd st) + 5)%nat
  /\ reads (snd (snd (Stop d st))) = reads (snd st)
  /\ exists rest,
      events_since st (snd (Stop d st))
      = EvLog INFO "Deleting Pod (name=%s)"
          :: EvDelete (_pod_name (fst st)) (_namespace (fst st)) :: rest.
Proof.
  rewrite Stop_unfold.
  destruct (for_each_turn (time_utils.exponential_backoff d 5) delete_once st)
    as [r st'] eqn:Hloop.
  destruct (for_each_turn_events _ _ _ _ Hloop) as (E1 & E2 & E3).
  destruct (for_each_turn_frame _ _ _ _ Hloop) as (_ & _ & _ & F4).
  assert (Hfirst : (deletes (snd st) < deletes (snd st'))%nat
                   /\ exists rest,
                       events_since st st'
                       = EvLog INFO "Deleting Pod (name=%s)"
                           :: EvDelete (_pod_name (fst st))
                                (_namespace (fst st)) :: rest).
  { unfold time_utils.exponential_backoff in Hloop.
    cbn [time_utils.turns_from] in Hloop.
    rewrite for_each_turn_cons in Hloop.
    unfold generator_sleep at 1 in Hloop.
    cbn [time_utils.sleep_before] in Hloop.
    unfold ret at 1 in Hloop.
    destruct (delete_once st) as [r1 st2] eqn:Hd.
    destruct (delete_once_frame _ _ _ Hd) as (_ & _ & D3 & _).
    destruct (delete_once_events _ _ _ Hd) as (_ & tail & D4 & _).
    destruct r1 as [[|]|e].
    - destruct (for_each_turn_frame _ _ _ _ Hloop) as (_ & _ & G3 & G4).
      split; [ lia | ]. eexists. apply events_since_app.
      rewrite G4, D4, <- app_assoc. reflexivity.
    - injection Hloop as <- <-. split; [ lia | ].
      eexists. apply events_since_app. exact D4.
    - injection Hloop as <- <-. split; [ lia | ].
      eexists. apply events_since_app. exact D4. }
  destruct Hfirst as (Hlt & rest & Hrest).
  simpl in E2.
  destruct r as [[|]|e]; simpl;
    try (split; [ exact E1 | ]; split; [ lia | ]; split; [ exact E3 | ];
         exists rest; exact Hrest).
  rewrite (events_since_app st
             (fst st',
              emit (EvLog WARNING "Unable to delete the model server Pod.")
                   (snd st'))
             (events_since st st'
                ++ [EvLog WARNING "Unable to delete the model server Pod."])).
  - split.
    + apply Forall_app. split; [ exact E1 | ].
      constructor; [ right; left; reflexivity | constructor ].
    + split; [ lia | ]. split; [ exact E3 | ].
      rewrite Hrest. eexists. reflexivity.
  - simpl. rewrite F4, <- app_assoc. reflexivity.
Qed.

(** With a client that fails deletion requests with [ApiException] only,
    the loop of [Stop] raises nothing. *)
Lemma for_each_turn_no_raise (turns : list time_utils.turn) :
  forall st,
    deletes_fail_with_ApiException_only (cluster (snd st)) ->
    sleeps_allowed turns ->
    exists fl st', for_each_turn turns delete_once st = (Return fl, st').
Proof.
  induction turns as [|t rest IH]; intros st Hapi Hsleeps.
  - do 2 eexists. reflexivity.
  - inversion Hsleeps as [|t' rest' Ht Hrest]; subst.
    rewrite for_each_turn_cons.
    destruct (generator_sleep t st) as [[u|e] st1] eqn:Hs.
    + destruct (generator_sleep_frame _ _ _ _ Hs) as (S1 & S2 & _).
      destruct (delete_once st1) as [r1 st2] eqn:Hd.
      destruct (delete_once_frame _ _ _ Hd) as (_ & D2 & _).
      destruct (delete_once_events _ _ _ Hd) as (Hr1 & _).
      destruct r1 as [[|]|e].
      * apply IH; [ rewrite D2, S2; exact Hapi | exact Hrest ].
      * do 2 eexists. reflexivity.
      * exfalso. unfold verdict in Hr1.
        destruct (deletion st1 (deletes (snd st1))) as [[]|e'] eqn:Hans;
          [ discriminate | ].
        unfold deletion in Hans. rewrite S2 in Hans.
        destruct (Hapi _ _ _ _ Hans) as [status ->].
        destruct (Py.int_eq status 404); discriminate.
    + exfalso. destruct st as [self w].
      unfold generator_sleep, time_sleep, ret in Hs.
      destruct (time_utils.sleep_before t) as [seconds|];
        [ | discriminate ].
      destruct (Z.ltb_spec seconds 0); [ lia | discriminate ].
Qed.

(** X21.  With a client that fails deletion requests with [ApiException]
    only, and a backoff whose initial delay and multiplier are not
    negative, [Stop] returns normally, whatever the statuses of the
    failures are. *)
Theorem Stop_never_escalates (d : time_utils.defaults) (st : State) :
  deletes_fail_with_ApiException_only (cluster (snd st)) ->
  0 <= time_utils.initial_delay_sec d ->
  0 <= time_utils.multiplier d ->
  fst (Stop d st) = Return tt.
Proof.
  intros Hapi Hdelay Hmult.
  assert (Hsleeps : sleeps_allowed (time_utils.exponential_backoff d 5)).
  { unfold sleeps_allowed, time_utils.exponential_backoff. simpl.
    repeat constructor; simpl; nia. }
  destruct (for_each_turn_no_raise _ st Hapi Hsleeps) as (fl & st' & Hloop).
  rewrite Stop_unfold, Hloop. destruct fl; reflexivity.
Qed.

Lemma Stop_never_escalates_witness :
  let st := Fixture.started Fixture.unreachable in
  deletes_fail_with_ApiException_only (cluster (snd st))
  /\ 0 <= time_utils.initial_delay_sec Fixture.backoff
  /\ 0 <= time_utils.multiplier Fixture.backoff
  /\ fst (Stop Fixture.backoff st) = Return tt.
Proof.
  intros st.
  assert (Hapi : deletes_fail_with_ApiException_only (cluster (snd st))).
  { intros k name namespace e H. simpl in H. injection H as <-.
    eexists. reflexivity. }
  split; [ exact Hapi | ].
  split; [ discriminate | ]. split; [ discriminate | ].
  apply (Stop_never_escalates Fixture.backoff st Hapi); discriminate.
Defined.

(** ** [__repr__] *)

(** X22.  [__repr__] shows the image of the serving binary and the pod
    name: "None" on a runner fresh from [__init__], and, once [Start] has
    had its creation request granted, the name of the pod the
    orchestrator returned.  A [Start] that does not return normally,
    [WaitUntilRunning] and [Stop] do not change what it shows. *)
Theorem __repr___tracks_Start
  env model_path serving_binary serving_spec (self : KubernetesRunner)
  (w : World) (body : V1Pod.t) (st1 : State) (pod : V1Pod.t) :
  __init__ env model_path serving_binary serving_spec = Return self ->
  _BuildPodManifest (self, w) = (Return body, st1) ->
  create_namespaced_pod (cluster w) (_namespace self) body = Return pod ->
  let shown name :=
    "KubernetesRunner(image: " ++ serving_bins.image serving_binary
    ++ ", pod_name: " ++ name ++ ")" in
  fst (__repr__ (self, w)) = Return (shown "None")
  /\ fst (Start (self, w)) = Return tt
  /\ fst (__repr__ (snd (Start (self, w))))
     = Return (shown (Py.str_of_opt (V1ObjectMeta.name (V1Pod.metadata pod))))
  /\ (forall st,
         fst (Start st) <> Return tt ->
         fst (__repr__ (snd (Start st))) = fst (__repr__ st))
  /\ (forall d st, fst (__repr__ (snd (Stop d st))) = fst (__repr__ st))
  /\ (forall deadline fuel st out,
         WaitUntilRunning fuel deadline st = Some out ->
         fst (__repr__ (snd out)) = fst (__repr__ st)).
Proof.
  intros Hinit Hbuild Hcreate shown.
  assert (Hfailed : forall st,
             fst (Start st) <> Return tt ->
             fst (__repr__ (snd (Start st))) = fst (__repr__ st)).
  { clear. intros st Hfail. rewrite Start_unfold in Hfail |- *.
    destruct (Py.truthy_str (_pod_name (fst st))); [ reflexivity | ].
    destruct (fst (_BuildPodManifest st)); [ | reflexivity ].
    cbv zeta in *.
    destruct (create_namespaced_pod _ _ _); [ | reflexivity ].
    exfalso. apply Hfail. reflexivity. }
  destruct (__init___fields _ _ _ _ _ Hinit) as (Hself & _ & _).
  assert (Hfresh : Py.truthy_str (_pod_name (fst (self, w))) = false).
  { rewrite Hself. reflexivity. }
  destruct (Start_created (self, w) body st1 pod Hfresh Hbuild Hcreate)
    as (S1 & S2 & _).
  split; [ rewrite Hself; reflexivity | ].
  split; [ exact S1 | ]. split; [ | split; [ | split ] ].
  - unfold __repr__, bind, get_self, ret. cbn [fst snd]. rewrite S2.
    cbn [fst]. rewrite Hself. reflexivity.
  - exact Hfailed.
  - intros d st. pose proof (Stop_frame d st) as Hkeep.
    unfold __repr__, bind, get_self, ret. simpl. rewrite Hkeep. reflexivity.
  - intros deadline fuel st out Hout.
    unfold WaitUntilRunning in Hout.
    destruct (Py.truthy_str (_pod_name (fst st)));
      [ | injection Hout as <-; reflexivity ].
    apply wait_loop_Run in Hout.
    destruct (Run_frame _ _ _ Hout) as (F1 & _ & F3 & _).
    unfold __repr__, bind, get_self, ret. simpl. rewrite F1, F3. reflexivity.
Qed.

Lemma __repr___tracks_Start_witness :
  let self := Fixture.runner None in
  let w := Fixture.world Fixture.flaky_then_running in
  __init__ Fixture.kfp "/model" Fixture.tensorflow_serving
           (Fixture.serving_spec None) = Return self
  /\ create_namespaced_pod (cluster w) (_namespace self)
       (match fst (_BuildPodManifest (self, w)) with
        | Return body => body
        | Raise _ => Fixture.a_pod "" None None
        end)
     = Return (Fixture.a_pod Fixture.server (Some "Pending") None)
  /\ fst (__repr__ (self, w))
     = Return "KubernetesRunner(image: tensorflow/serving:latest, pod_name: None)"
  /\ fst (__repr__ (snd (Start (self, w))))
     = Return ("KubernetesRunner(image: tensorflow/serving:latest, pod_name: "
               ++ Fixture.server ++ ")").
Proof.
  intros self w. split; [ reflexivity | ]. split; [ reflexivity | ].
  destruct (__repr___tracks_Start Fixture.kfp "/model"
              Fixture.tensorflow_serving (Fixture.serving_spec None) self w
              _ (self, w)
              (Fixture.a_pod Fixture.server (Some "Pending") None)
              eq_refl eq_refl eq_refl) as (H1 & _ & H3 & _).
  split; [ exact H1 | exact H3 ].
Defined.

(** ** The fixture of [BeamHandlerTest] *)

(** X23.  Whatever the test and the [tearDown] of the base class do to the
    environment in between, [tearDown] after [setUp] leaves HOME and
    BEAM_HOME at the values [setUp] found: a variable that was set gets
    that value back, one that was not set is not removed but set to the
    empty string.  No other variable is written by [tearDown]. *)
Theorem tearDown_restores_HOME
  (h : BeamHandlerTest.host)
  (env : BeamHandlerTest.environ)
  (test : BeamHandlerTest.environ -> BeamHandlerTest.environ) :
  let found := BeamHandlerTest.super_setUp h env in
  let self := fst (BeamHandlerTest.setUp h env) in
  let during := snd (BeamHandlerTest.setUp h env) in
  let after := BeamHandlerTest.tearDown h self (test during) in
  (forall key,
      key = "HOME" \/ key = "BEAM_HOME" ->
      (forall value, found key = Some value -> after key = Some value)
      /\ (found key = None -> after key = Some ""))
  /\ (forall key,
         key <> "HOME" -> key <> "BEAM_HOME" ->
         after key = BeamHandlerTest.super_tearDown h (test during) key)
  /\ during "BEAM_HOME"
     = Some (BeamHandlerTest.path_join h
               (BeamHandlerTest.get during "HOME" "") "beam").
Proof.
  intros found self during after.
  assert (Hhome : after "HOME" = Some (BeamHandlerTest.get found "HOME" "")).
  { reflexivity. }
  assert (Hbeam : after "BEAM_HOME"
                  = Some (BeamHandlerTest.get found "BEAM_HOME" "")).
  { reflexivity. }
  split; [ | split ].
  - intros key [-> | ->]; rewrite ?Hhome, ?Hbeam;
      unfold BeamHandlerTest.get; split.
    + intros value ->. reflexivity.
    + intros ->. reflexivity.
    + intros value ->. reflexivity.
    + intros ->. reflexivity.
  - intros key Hh Hb. unfold after, BeamHandlerTest.tearDown,
      BeamHandlerTest.set. cbv zeta.
    destruct (String.eqb_spec key "BEAM_HOME"); [ contradiction | ].
    destruct (String.eqb_spec key "HOME"); [ contradiction | ].
    reflexivity.
  - reflexivity.
Qed.
